(** * The Cluster asset of the installer (pkg/asset/cluster/cluster.go)

    A shallow embedding of the [Cluster] asset: its [Load] probe and its
    [Generate] step, which stages a temporary directory, unpacks the
    platform data, runs terraform and stages [terraform.tfstate] and
    [metadata.json] in the asset's file list.

    Everything outside the process (file system, terraform, the embedded
    data, the JSON encoder, the logger) is an oracle of an environment
    record that threads an abstract world; every call to it is recorded in
    a trace, so that "is invoked", "is attempted" and "happens before" are
    statements about that trace.

    The bootstrap script of the bootstrap machine (bootkube.sh) is
    embedded the same way, further down: a shell under [set -e] whose
    commands are oracles of a host. *)

From Stdlib Require Import Strings.Byte Ascii String List.
From stdpp Require Import base option strings list gmap.

(** ** Go values shared by the packages below *)

(** A Go [[]byte]. *)
Abbreviation bytes := (list Byte.byte).

(** Go's [error] interface.  An error value of this package is created
    from a message ([fmt.Errorf]) or wraps a cause with a message
    ([errors.Wrap] of github.com/pkg/errors); an error value made by
    another package is [Foreign], and only its message is known.  Error
    values made here are thus never equal to one handed in from outside,
    as in Go, where they are distinct allocations.  A nil [error] is
    [None] of [option error]. *)
Module errors.

Inductive foreign : Type :=
| ForeignError (msg : string).

Inductive error : Type :=
| New (msg : string)
| Wrap (cause : error) (msg : string)
| Foreign (e : foreign).

(** [err.Error()]: pkg/errors prints a wrapped error as
    "msg: cause". *)
Fixpoint Error (e : error) : string :=
  match e with
  | New msg => msg
  | Wrap cause msg => msg +:+ ": " +:+ Error cause
  | Foreign (ForeignError msg) => msg
  end.

End errors.
Export errors.

Arguments Error : simpl never.

Module fmt.

(** The double quote character. *)
Definition dquote : ascii := "034"%char.

(** The verb [%q] on a string without characters that need escaping:
    the string between double quotes. *)
Definition q (s : string) : string :=
  String dquote (s +:+ String dquote EmptyString).

Definition Errorf (msg : string) : error := New msg.

End fmt.

(** ** Package asset (the parts the Cluster asset uses) *)
Module asset.

(** [asset.File]: a relative file name and its payload. *)
Record File : Type := { Filename : string; Data : bytes }.

(** The interface [asset.FileFetcher]: [FetchByName] returns a pointer to
    the file, nil ([None]) when there is none. *)
Class FileFetcher (F : Type) : Type :=
  FetchByName : F -> string -> option File.

(** Modelled from the spec: the persistence layer's storage, which is
    not among the sources.  "Given a filename, returns the file's bytes
    if present on disk, or an absence signal - never interprets
    content."  A storage state maps the names of the files on disk to
    their bytes. *)
Abbreviation Storage := (gmap string bytes).

#[export] Instance storage_fetcher : FileFetcher Storage :=
  fun st name => (fun d => {| Filename := name; Data := d |}) <$> st !! name.

End asset.
Export asset.

(** ** Package types

    Modelled from the spec: the declarations of package types are not
    among the sources.  The spec describes the platform classification
    input as "a configuration object carrying exactly one of several
    mutually exclusive platform sections (region/identifier fields differ
    per platform)" and the cluster metadata record as "cluster name,
    chosen target platform, platform-specific identifying fields".  The
    records below carry the fields that cluster.go reads and writes, under
    the names it uses; a nil section pointer is [None]. *)
Module types.

Module AWSPlatform.
Record t : Type := { Region : string }.
End AWSPlatform.

Module OpenStackPlatform.
Record t : Type := { Region : string }.
End OpenStackPlatform.

Module LibvirtPlatform.
Record t : Type := { URI : string }.
End LibvirtPlatform.

Module Platform.
Record t : Type := {
  AWS : option AWSPlatform.t;
  OpenStack : option OpenStackPlatform.t;
  Libvirt : option LibvirtPlatform.t
}.
End Platform.

Module ObjectMeta.
Record t : Type := { Name : string }.
End ObjectMeta.

Module InstallConfig.
Record t : Type := {
  ObjectMeta : ObjectMeta.t;
  ClusterID : string;
  Platform : Platform.t
}.
End InstallConfig.

Module ClusterAWSPlatformMetadata.
Record t : Type := { Region : string; Identifier : gmap string string }.
End ClusterAWSPlatformMetadata.

Module ClusterOpenStackPlatformMetadata.
Record t : Type := { Region : string; Identifier : gmap string string }.
End ClusterOpenStackPlatformMetadata.

Module ClusterLibvirtPlatformMetadata.
Record t : Type := { URI : string }.
End ClusterLibvirtPlatformMetadata.

Module ClusterPlatformMetadata.
Record t : Type := {
  AWS : option ClusterAWSPlatformMetadata.t;
  OpenStack : option ClusterOpenStackPlatformMetadata.t;
  Libvirt : option ClusterLibvirtPlatformMetadata.t
}.
End ClusterPlatformMetadata.

Module ClusterMetadata.
Record t : Type := {
  ClusterName : string;
  ClusterPlatformMetadata : ClusterPlatformMetadata.t
}.
End ClusterMetadata.

End types.

(** ** The dependencies of the Cluster asset, as [parents.Get] hands them
    over.  [installConfig.Config] is the configuration the install-config
    asset resolved (a non-nil pointer once that asset is resolved);
    [terraformVariables.Files()] is the variables asset's file list; the
    admin kubeconfig is fetched and not used. *)
Module installconfig.
Record InstallConfig : Type := { Config : types.InstallConfig.t }.
End installconfig.

Module kubeconfig.
Record Admin : Type := { Files : list File }.
End kubeconfig.

(** ** The world outside the process *)

(** Calls that leave the process, in the order they are made, each with
    the answer it got, and two kinds of entries that are not calls:
    [EvSwitch] marks the evaluation of the [switch] over the platform
    sections, with the section it selected, and [EvLog] is a line handed
    to logrus. *)
Inductive PlatformKind : Type := AWS | OpenStack | Libvirt.

Inductive Level : Type := InfoLevel | ErrorLevel.

Inductive Event : Type :=
| EvTempDir (dir prefix : string) (r : string + foreign)
| EvRemoveAll (path : string) (r : option foreign)
| EvWriteFile (filename : string) (data : bytes) (perm : N) (r : option foreign)
| EvReadFile (filename : string) (r : bytes + foreign)
| EvUnpack (base uri : string) (r : option foreign)
| EvSwitch (selected : option PlatformKind)
| EvInit (dir : string) (r : option foreign)
| EvApply (dir : string) (r : string * option foreign)
| EvMarshal (v : types.ClusterMetadata.t) (r : bytes + foreign)
| EvLog (level : Level) (msg : string).

(** The functions of other packages that [Generate] calls.  Those that
    touch the file system or run terraform take the world and return the
    next one; [os.TempDir] reads it; [filepath.Join], [json.Marshal] and
    [Platform.Name] are functions of their arguments. *)
Record Env (W : Type) : Type := {
  os_TempDir : W -> string;
  ioutil_TempDir : string -> string -> W -> (string + foreign) * W;
  os_RemoveAll : string -> W -> option foreign * W;
  ioutil_WriteFile : string -> bytes -> N -> W -> option foreign * W;
  ioutil_ReadFile : string -> W -> (bytes + foreign) * W;
  filepath_Join : string -> string -> string;
  data_Unpack : string -> string -> W -> option foreign * W;
  terraform_Init : string -> W -> option foreign * W;
  terraform_Apply : string -> W -> (string * option foreign) * W;
  json_Marshal : types.ClusterMetadata.t -> bytes + foreign;
  Platform_Name : types.Platform.t -> string
}.

Arguments os_TempDir {W}.
Arguments ioutil_TempDir {W}.
Arguments os_RemoveAll {W}.
Arguments ioutil_WriteFile {W}.
Arguments ioutil_ReadFile {W}.
Arguments filepath_Join {W}.
Arguments data_Unpack {W}.
Arguments terraform_Init {W}.
Arguments terraform_Apply {W}.
Arguments json_Marshal {W}.
Arguments Platform_Name {W}.

(** The same environment with another JSON encoder: what [Generate] does
    there is what it would do were serialization to go otherwise. *)
Definition with_json_Marshal {W} (E : Env W)
    (marshal : types.ClusterMetadata.t -> bytes + foreign) : Env W :=
  {| os_TempDir := os_TempDir E;
     ioutil_TempDir := ioutil_TempDir E;
     os_RemoveAll := os_RemoveAll E;
     ioutil_WriteFile := ioutil_WriteFile E;
     ioutil_ReadFile := ioutil_ReadFile E;
     filepath_Join := filepath_Join E;
     data_Unpack := data_Unpack E;
     terraform_Init := terraform_Init E;
     terraform_Apply := terraform_Apply E;
     json_Marshal := marshal;
     Platform_Name := Platform_Name E |}.

(** ** Package cluster *)
Module cluster.

(** MetadataFilename is name of the file where clustermetadata is stored. *)
Definition MetadataFilename : string := "metadata.json".

Definition stateFileName : string := "terraform.tfstate".

(** Cluster uses the terraform executable to launch a cluster. *)
Record Cluster : Type := { FileList : list File }.

(** The terraform variables asset.  Its declaration (tfvars.go of this
    package) is not among the sources; [Generate] uses its [Files()]
    only, which is an input here. *)
Record TerraformVariables : Type := { tfvars_FileList : list File }.

Definition TerraformVariables_Files (t : TerraformVariables) : list File :=
  tfvars_FileList t.

(** What [parents.Get(installConfig, terraformVariables,
    adminKubeconfig)] copies out of the parent view. *)
Record Parents : Type := {
  installConfig : installconfig.InstallConfig;
  terraformVariables : TerraformVariables;
  adminKubeconfig : kubeconfig.Admin
}.

Definition Name (c : Cluster) : string := "Cluster".

(** Files returns the FileList generated by the asset. *)
Definition Files (c : Cluster) : list File := FileList c.

(** Load returns error if the tfstate file is already on-disk.  The
    receiver is a pointer: the third component is the asset after the
    call. *)
Definition Load `{FileFetcher F} (c : Cluster) (f : F)
  : bool * option error * Cluster :=
  match FetchByName f stateFileName with
  | Some _ =>
      (true, Some (fmt.Errorf (fmt.q stateFileName +:+ " already exisits")), c)
  | None => (false, None, c)
  end.

(** *** The state [Generate] runs in: the world, the trace of what was
    called so far, and the receiver [c]. *)
Record State (W : Type) : Type := {
  world : W;
  trace : list Event;
  self : Cluster
}.
Arguments world {W}.
Arguments trace {W}.
Arguments self {W}.

Definition M (W A : Type) : Type := State W -> A * State W.

Definition ret {W A} (a : A) : M W A := fun s => (a, s).

Definition bind {W A B} (m : M W A) (k : A -> M W B) : M W B :=
  fun s => let (a, s') := m s in k a s'.

Notation "'let*' x := m 'in' k" := (bind m (fun x => k))
  (at level 10, x name, m at level 100, k at level 200).
Notation "'let*' ' p := m 'in' k" :=
  (bind m (fun x => match x with p => k end))
  (at level 10, p pattern, m at level 100, k at level 200).
Notation "'do' m 'then' k" := (bind m (fun _ => k))
  (at level 10, m at level 100, k at level 200).

(** A call to the outside: answered by the world, and recorded with
    its answer. *)
Definition call {W A} (ev : A -> Event) (f : W -> A * W) : M W A :=
  fun s =>
    let (a, w) := f (world s) in
    (a, {| world := w; trace := trace s ++ [ev a]; self := self s |}).

(** A call to a function of its arguments only. *)
Definition call_pure {W A} (ev : A -> Event) (a : A) : M W A :=
  call ev (fun w => (a, w)).

(** Reading the world. *)
Definition ask {W A} (f : W -> A) : M W A :=
  fun s => (f (world s), s).

(** An entry of the trace that asks nothing of the world. *)
Definition emit {W} (ev : Event) : M W unit :=
  fun s => (tt, {| world := world s; trace := trace s ++ [ev];
                   self := self s |}).

(** [c.FileList = append(c.FileList, f)] *)
Definition append_FileList {W} (f : File) : M W unit :=
  fun s => (tt, {| world := world s; trace := trace s;
                   self := {| FileList := FileList (self s) ++ [f] |} |}).

(** How a call of a Go function ends: it returns its (named) result
    [err], or it panics. *)
Inductive Panic : Type :=
| IndexOutOfRange (index length : nat).

Inductive Outcome : Type :=
| Return (err : option error)
| Panicking (p : Panic).

Section Generate.

Context {W : Type} (E : Env W).

Import types.

(** [defer f()]: [f] runs when the rest of the function returns or
    panics, and the outcome stays what it was. *)
Definition defer (f : M W unit) (rest : M W Outcome) : M W Outcome :=
  let* o := rest in
  do f then
  ret o.

Definition logrus (level : Level) (msg : string) : M W unit :=
  emit (EvLog level msg).

(** Lines 75-77: the metadata record as first allocated. *)
Definition new_metadata (config : InstallConfig.t) : ClusterMetadata.t :=
  {| ClusterMetadata.ClusterName :=
       ObjectMeta.Name (InstallConfig.ObjectMeta config);
     ClusterMetadata.ClusterPlatformMetadata :=
       {| ClusterPlatformMetadata.AWS := None;
          ClusterPlatformMetadata.OpenStack := None;
          ClusterPlatformMetadata.Libvirt := None |} |}.

(** The three assignments of the switch (lines 98, 105, 112): each
    sets one field of the record [metadata] points to. *)
Definition set_AWS (metadata : ClusterMetadata.t)
    (v : ClusterAWSPlatformMetadata.t) : ClusterMetadata.t :=
  let p := ClusterMetadata.ClusterPlatformMetadata metadata in
  {| ClusterMetadata.ClusterName := ClusterMetadata.ClusterName metadata;
     ClusterMetadata.ClusterPlatformMetadata :=
       {| ClusterPlatformMetadata.AWS := Some v;
          ClusterPlatformMetadata.OpenStack :=
            ClusterPlatformMetadata.OpenStack p;
          ClusterPlatformMetadata.Libvirt :=
            ClusterPlatformMetadata.Libvirt p |} |}.

Definition set_OpenStack (metadata : ClusterMetadata.t)
    (v : ClusterOpenStackPlatformMetadata.t) : ClusterMetadata.t :=
  let p := ClusterMetadata.ClusterPlatformMetadata metadata in
  {| ClusterMetadata.ClusterName := ClusterMetadata.ClusterName metadata;
     ClusterMetadata.ClusterPlatformMetadata :=
       {| ClusterPlatformMetadata.AWS := ClusterPlatformMetadata.AWS p;
          ClusterPlatformMetadata.OpenStack := Some v;
          ClusterPlatformMetadata.Libvirt :=
            ClusterPlatformMetadata.Libvirt p |} |}.

Definition set_Libvirt (metadata : ClusterMetadata.t)
    (v : ClusterLibvirtPlatformMetadata.t) : ClusterMetadata.t :=
  let p := ClusterMetadata.ClusterPlatformMetadata metadata in
  {| ClusterMetadata.ClusterName := ClusterMetadata.ClusterName metadata;
     ClusterMetadata.ClusterPlatformMetadata :=
       {| ClusterPlatformMetadata.AWS := ClusterPlatformMetadata.AWS p;
          ClusterPlatformMetadata.OpenStack :=
            ClusterPlatformMetadata.OpenStack p;
          ClusterPlatformMetadata.Libvirt := Some v |} |}.

(** Lines 79-94, the deferred closure.  It sees the record [metadata]
    points to when it runs and the named result [err], which it may
    assign; its value is the [err] that [Generate] returns. *)
Definition deferred_metadata (metadata : ClusterMetadata.t)
    (err : option error) : M W (option error) :=
  let* r := call_pure (EvMarshal metadata) (json_Marshal E metadata) in
  match r with
  | inl data =>
      do append_FileList {| Filename := MetadataFilename; Data := data |} then
      ret err
  | inr err2 =>
      let err2 := Wrap (Foreign err2) "failed to Marshal ClusterMetadata" in
      match err with
      | None => ret (Some err2)
      | Some _ =>
          do logrus ErrorLevel (Error err2) then
          ret err
      end
  end.

(** Lines 119-151: unpack config.tf, run terraform, read the state
    file back.  The value is the named result [err] at [return]. *)
Definition run_terraform (tmpDir : string) : M W (option error) :=
  let config_tf := filepath_Join E tmpDir "config.tf" in
  let* uerr := call (EvUnpack config_tf "config.tf")
                 (data_Unpack E config_tf "config.tf") in
  match uerr with
  | Some err => ret (Some (Foreign err))
  | None =>
      do logrus InfoLevel "Using Terraform to create cluster..." then
      let* ierr := call (EvInit tmpDir) (terraform_Init E tmpDir) in
      match ierr with
      | Some err =>
          ret (Some (Wrap (Foreign err) "failed to initialize terraform"))
      | None =>
          let* '(stateFile, aerr) :=
            call (EvApply tmpDir) (terraform_Apply E tmpDir) in
          let err :=
            match aerr with
            | Some err => Some (Wrap (Foreign err) "failed to run terraform")
            | None => None
            end in
          let* r := call (EvReadFile stateFile) (ioutil_ReadFile E stateFile) in
          match r with
          | inl data =>
              do append_FileList {| Filename := stateFileName; Data := data |} then
              ret err
          | inr err2 =>
              match err with
              | None => ret (Some (Foreign err2))
              | Some _ =>
                  do logrus ErrorLevel
                       ("Failed to read tfstate: " +:+ Error (Foreign err2)) then
                  ret err
              end
          end
      end
  end.

(** Lines 96-151: the switch over the platform sections, then
    terraform.  The value is the record [metadata] points to in the
    end, and the named result [err]. *)
Definition classify_and_run (tmpDir : string) (config : InstallConfig.t)
    (metadata : ClusterMetadata.t) : M W (ClusterMetadata.t * option error) :=
  let platform := InstallConfig.Platform config in
  match Platform.AWS platform with
  | Some aws =>
      do emit (EvSwitch (Some AWS)) then
      let metadata := set_AWS metadata
        {| ClusterAWSPlatformMetadata.Region := AWSPlatform.Region aws;
           ClusterAWSPlatformMetadata.Identifier :=
             {[ "tectonicClusterID" := InstallConfig.ClusterID config ]} |} in
      let* err := run_terraform tmpDir in
      ret (metadata, err)
  | None =>
  match Platform.OpenStack platform with
  | Some openstack =>
      do emit (EvSwitch (Some OpenStack)) then
      let metadata := set_OpenStack metadata
        {| ClusterOpenStackPlatformMetadata.Region :=
             OpenStackPlatform.Region openstack;
           ClusterOpenStackPlatformMetadata.Identifier :=
             {[ "tectonicClusterID" := InstallConfig.ClusterID config ]} |} in
      let* err := run_terraform tmpDir in
      ret (metadata, err)
  | None =>
  match Platform.Libvirt platform with
  | Some libvirt =>
      do emit (EvSwitch (Some Libvirt)) then
      let metadata := set_Libvirt metadata
        {| ClusterLibvirtPlatformMetadata.URI := LibvirtPlatform.URI libvirt |} in
      let* err := run_terraform tmpDir in
      ret (metadata, err)
  | None =>
      do emit (EvSwitch None) then
      ret (metadata, Some (fmt.Errorf "no known platform"))
  end end end.

(** Lines 65-151, what runs once the temporary directory exists and
    its removal is deferred.  The closure deferred at line 79 runs
    when lines 96-151 return (nothing there panics). *)
Definition in_tmpDir (tmpDir : string) (parents : Parents) : M W Outcome :=
  let config := installconfig.Config (installConfig parents) in
  match TerraformVariables_Files (terraformVariables parents) with
  | [] => ret (Panicking (IndexOutOfRange 0 0))
  | terraformVariablesFile :: _ =>
      let filename := filepath_Join E tmpDir (Filename terraformVariablesFile) in
      let* werr :=
        call (EvWriteFile filename (Data terraformVariablesFile) 384)
          (ioutil_WriteFile E filename (Data terraformVariablesFile) 384) in
      match werr with
      | Some err =>
          ret (Return (Some (Wrap (Foreign err)
                               "failed to write terraform.tfvars file")))
      | None =>
          let platform := Platform_Name E (InstallConfig.Platform config) in
          let* uerr := call (EvUnpack tmpDir platform)
                         (data_Unpack E tmpDir platform) in
          match uerr with
          | Some err => ret (Return (Some (Foreign err)))
          | None =>
              let metadata := new_metadata config in
              let* '(metadata, err) := classify_and_run tmpDir config metadata in
              let* err := deferred_metadata metadata err in
              ret (Return err)
          end
      end
  end.

(** Generate launches the cluster and generates the terraform state
    file on disk. *)
Definition Generate (parents : Parents) : M W Outcome :=
  let* dir := ask (os_TempDir E) in
  let* r := call (EvTempDir dir "openshift-install-")
              (ioutil_TempDir E dir "openshift-install-") in
  match r with
  | inr err =>
      ret (Return (Some (Wrap (Foreign err)
                           "failed to create temp dir for terraform execution")))
  | inl tmpDir =>
      defer (do call (EvRemoveAll tmpDir) (os_RemoveAll E tmpDir) then ret tt)
            (in_tmpDir tmpDir parents)
  end.

(** One call of [c.Generate(parents)] in the world [w], from an empty
    trace. *)
Definition run (parents : Parents) (c : Cluster) (w : W)
  : Outcome * State W :=
  Generate parents {| world := w; trace := []; self := c |}.

Definition outcome_of (r : Outcome * State W) : Outcome := fst r.
Definition trace_of (r : Outcome * State W) : list Event := trace (snd r).
Definition cluster_of (r : Outcome * State W) : Cluster := self (snd r).

End Generate.

End cluster.
Export cluster.

(** ** The metadata file as JSON

    Modelled from the spec: the JSON field names of package types are not
    among the sources.  The spec gives the metadata output file as
    [{clusterName, platform-specific identifier fields}], for AWS
    [{clusterName: .., aws: {region: .., identifier: {..}}}].  This module
    is an encoder and a decoder for that shape: objects and strings, a
    platform section left out when its pointer is nil, and in a string
    the double quote and the backslash written with a backslash before
    them.  It is one encoder an environment can have; [Generate] is
    stated for every environment. *)
Module json.

Import types.

#[local] Set Warnings "-register-all".

Inductive value : Type :=
| Str (s : string)
| Object (members : list (string * value)).

Definition backslash : ascii := "092"%char.

Definition escaped (c : ascii) : bool :=
  (Ascii.eqb c fmt.dquote || Ascii.eqb c backslash)%bool.

Fixpoint escape (s : string) : string :=
  match s with
  | EmptyString => EmptyString
  | String c s' =>
      if escaped c
      then String backslash (String c (escape s'))
      else String c (escape s')
  end.

Definition quote (s : string) : string :=
  String fmt.dquote (escape s +:+ String fmt.dquote EmptyString).

Fixpoint render (v : value) : string :=
  match v with
  | Str s => quote s
  | Object members =>
      let member kv := quote (fst kv) +:+ ":" +:+ render (snd kv) in
      "{" +:+ String.concat "," (List.map member members) +:+ "}"
  end.

(** The text after an opening quote, up to the closing one. *)
Fixpoint parse_chars (s acc : string) : option (string * string) :=
  match s with
  | EmptyString => None
  | String c s' =>
      if Ascii.eqb c fmt.dquote then Some (acc, s')
      else if Ascii.eqb c backslash then
        match s' with
        | String c' s'' =>
            if escaped c'
            then parse_chars s'' (acc +:+ String c' EmptyString)
            else None
        | EmptyString => None
        end
      else parse_chars s' (acc +:+ String c EmptyString)
  end.

(** A value at the head of the text, and the text after it. *)
Fixpoint parse_value (fuel : nat) (s : string) : option (value * string) :=
  match fuel with
  | O => None
  | S fuel =>
      match s with
      | String "{" (String "}" rest) => Some (Object [], rest)
      | String "{" rest =>
          match parse_members fuel rest with
          | Some (members, rest1) => Some (Object members, rest1)
          | None => None
          end
      | String c rest =>
          if Ascii.eqb c fmt.dquote then
            match parse_chars rest EmptyString with
            | Some (str, rest1) => Some (Str str, rest1)
            | None => None
            end
          else None
      | EmptyString => None
      end
  end
with parse_members (fuel : nat) (s : string)
  : option (list (string * value) * string) :=
  match fuel with
  | O => None
  | S fuel =>
      match s with
      | String c rest =>
          if Ascii.eqb c fmt.dquote then
            match parse_chars rest EmptyString with
            | Some (key, String ":" rest1) =>
                match parse_value fuel rest1 with
                | Some (v, String "," rest2) =>
                    match parse_members fuel rest2 with
                    | Some (members, rest3) =>
                        Some ((key, v) :: members, rest3)
                    | None => None
                    end
                | Some (v, String "}" rest2) => Some ([(key, v)], rest2)
                | _ => None
                end
            | _ => None
            end
          else None
      | EmptyString => None
      end
  end.

Definition parse (s : string) : option value :=
  match parse_value (S (String.length s)) s with
  | Some (v, EmptyString) => Some v
  | _ => None
  end.

(** *** From the record to a value and back *)

Definition of_Identifier (m : gmap string string) : value :=
  Object (List.map (fun kv => (fst kv, Str (snd kv))) (map_to_list m)).

Definition of_AWS (a : ClusterAWSPlatformMetadata.t) : value :=
  Object [("region", Str (ClusterAWSPlatformMetadata.Region a));
          ("identifier", of_Identifier (ClusterAWSPlatformMetadata.Identifier a))].

Definition of_OpenStack (a : ClusterOpenStackPlatformMetadata.t) : value :=
  Object [("region", Str (ClusterOpenStackPlatformMetadata.Region a));
          ("identifier",
           of_Identifier (ClusterOpenStackPlatformMetadata.Identifier a))].

Definition of_Libvirt (a : ClusterLibvirtPlatformMetadata.t) : value :=
  Object [("uri", Str (ClusterLibvirtPlatformMetadata.URI a))].

Definition omitempty {A} (key : string) (f : A -> value) (o : option A)
  : list (string * value) :=
  match o with
  | Some a => [(key, f a)]
  | None => []
  end.

Definition of_ClusterMetadata (md : ClusterMetadata.t) : value :=
  let p := ClusterMetadata.ClusterPlatformMetadata md in
  Object (("clusterName", Str (ClusterMetadata.ClusterName md))
            :: omitempty "aws" of_AWS (ClusterPlatformMetadata.AWS p)
            ++ omitempty "openstack" of_OpenStack (ClusterPlatformMetadata.OpenStack p)
            ++ omitempty "libvirt" of_Libvirt (ClusterPlatformMetadata.Libvirt p)).

Definition Marshal (md : ClusterMetadata.t) : bytes + foreign :=
  inl (list_byte_of_string (render (of_ClusterMetadata md))).

Fixpoint member (key : string) (members : list (string * value)) : option value :=
  match members with
  | [] => None
  | (k, v) :: rest => if String.eqb k key then Some v else member key rest
  end.

Definition to_string (v : option value) : option string :=
  match v with
  | Some (Str s) => Some s
  | None => Some EmptyString
  | Some (Object _) => None
  end.

Fixpoint to_strings (members : list (string * value))
  : option (gmap string string) :=
  match members with
  | [] => Some ∅
  | (k, Str s) :: rest =>
      match to_strings rest with
      | Some m => Some (<[k := s]> m)
      | None => None
      end
  | (_, Object _) :: _ => None
  end.

Definition to_Identifier (v : option value) : option (gmap string string) :=
  match v with
  | Some (Object members) => to_strings members
  | None => Some ∅
  | Some (Str _) => None
  end.

(** A section that is absent decodes to a nil pointer. *)
Definition section {A} (f : list (string * value) -> option A)
    (v : option value) : option (option A) :=
  match v with
  | None => Some None
  | Some (Object members) =>
      match f members with
      | Some a => Some (Some a)
      | None => None
      end
  | Some (Str _) => None
  end.

Definition to_AWS (members : list (string * value))
  : option ClusterAWSPlatformMetadata.t :=
  match to_string (member "region" members),
        to_Identifier (member "identifier" members) with
  | Some r, Some i =>
      Some {| ClusterAWSPlatformMetadata.Region := r;
              ClusterAWSPlatformMetadata.Identifier := i |}
  | _, _ => None
  end.

Definition to_OpenStack (members : list (string * value))
  : option ClusterOpenStackPlatformMetadata.t :=
  match to_string (member "region" members),
        to_Identifier (member "identifier" members) with
  | Some r, Some i =>
      Some {| ClusterOpenStackPlatformMetadata.Region := r;
              ClusterOpenStackPlatformMetadata.Identifier := i |}
  | _, _ => None
  end.

Definition to_Libvirt (members : list (string * value))
  : option ClusterLibvirtPlatformMetadata.t :=
  match to_string (member "uri" members) with
  | Some u => Some {| ClusterLibvirtPlatformMetadata.URI := u |}
  | None => None
  end.

Definition to_ClusterMetadata (v : value) : option ClusterMetadata.t :=
  match v with
  | Object members =>
      match to_string (member "clusterName" members),
            section to_AWS (member "aws" members),
            section to_OpenStack (member "openstack" members),
            section to_Libvirt (member "libvirt" members) with
      | Some name, Some aws, Some openstack, Some libvirt =>
          Some {| ClusterMetadata.ClusterName := name;
                  ClusterMetadata.ClusterPlatformMetadata :=
                    {| ClusterPlatformMetadata.AWS := aws;
                       ClusterPlatformMetadata.OpenStack := openstack;
                       ClusterPlatformMetadata.Libvirt := libvirt |} |}
      | _, _, _, _ => None
      end
  | Str _ => None
  end.

Definition Unmarshal (data : bytes) : option ClusterMetadata.t :=
  match parse (string_of_list_byte data) with
  | Some v => to_ClusterMetadata v
  | None => None
  end.

End json.

(** ** Concrete worlds

    An environment whose answers are fixed in advance, over a world with
    a single state, and install configurations to run [Generate] on. *)
Module scripted.

Import types.

Record Script : Type := {
  tempdir : string + foreign;
  write : option foreign;
  unpack_platform : option foreign;
  unpack_config : option foreign;
  init : option foreign;
  apply : option foreign;
  read : bytes + foreign;
  marshal : ClusterMetadata.t -> bytes + foreign
}.

(** The name of the platform section that is set, or the empty
    string. *)
Definition platform_name (p : Platform.t) : string :=
  match Platform.AWS p, Platform.Libvirt p, Platform.OpenStack p with
  | Some _, _, _ => "aws"
  | None, Some _, _ => "libvirt"
  | None, None, Some _ => "openstack"
  | None, None, None => ""
  end.

Definition env (sc : Script) : Env unit :=
  {| os_TempDir := fun _ => "/tmp";
     ioutil_TempDir := fun _ _ w => (tempdir sc, w);
     os_RemoveAll := fun _ w => (None, w);
     ioutil_WriteFile := fun _ _ _ w => (write sc, w);
     ioutil_ReadFile := fun _ w => (read sc, w);
     filepath_Join := fun a b => a +:+ "/" +:+ b;
     data_Unpack := fun _ uri w =>
       (if String.eqb uri "config.tf" then unpack_config sc
        else unpack_platform sc, w);
     terraform_Init := fun _ w => (init sc, w);
     terraform_Apply := fun dir w =>
       ((dir +:+ "/terraform.tfstate", apply sc), w);
     json_Marshal := marshal sc;
     Platform_Name := platform_name |}.

Definition tmp : string := "/tmp/openshift-install-042".

Definition tfstate : bytes := list_byte_of_string "{}".

(** Every step succeeds. *)
Definition sunny : Script :=
  {| tempdir := inl tmp; write := None; unpack_platform := None;
     unpack_config := None; init := None; apply := None;
     read := inl tfstate; marshal := json.Marshal |}.

Definition no_tempdir : Script :=
  {| tempdir := inr (ForeignError "mkdir /tmp: permission denied");
     write := None; unpack_platform := None;
     unpack_config := None; init := None; apply := None;
     read := inl tfstate; marshal := json.Marshal |}.



Definition apply_fails : Script :=
  {| tempdir := inl tmp; write := None; unpack_platform := None;
     unpack_config := None; init := None;
     apply := Some (ForeignError "exit status 1");
     read := inl tfstate; marshal := json.Marshal |}.

Definition apply_and_read_fail : Script :=
  {| tempdir := inl tmp; write := None; unpack_platform := None;
     unpack_config := None; init := None;
     apply := Some (ForeignError "exit status 1");
     read := inr (ForeignError "no such file or directory");
     marshal := json.Marshal |}.

Definition marshal_fails : Script :=
  {| tempdir := inl tmp; write := None; unpack_platform := None;
     unpack_config := None; init := None; apply := None;
     read := inl tfstate;
     marshal := fun _ => inr (ForeignError "json: unsupported value") |}.

Definition tfvars : TerraformVariables :=
  {| tfvars_FileList :=
       [ {| Filename := "terraform.tfvars"; Data := list_byte_of_string "{}" |} ] |}.

Definition no_tfvars : TerraformVariables := {| tfvars_FileList := [] |}.

Definition kubeconfig_admin : kubeconfig.Admin := {| kubeconfig.Files := [] |}.

Definition config (name clusterID : string) (p : Platform.t) : InstallConfig.t :=
  {| InstallConfig.ObjectMeta := {| ObjectMeta.Name := name |};
     InstallConfig.ClusterID := clusterID;
     InstallConfig.Platform := p |}.

Definition aws (region : string) : Platform.t :=
  {| Platform.AWS := Some {| AWSPlatform.Region := region |};
     Platform.OpenStack := None;
     Platform.Libvirt := None |}.

Definition no_platform : Platform.t :=
  {| Platform.AWS := None; Platform.OpenStack := None; Platform.Libvirt := None |}.

Definition parents_of (c : InstallConfig.t) (t : TerraformVariables) : Parents :=
  {| installConfig := {| installconfig.Config := c |};
     terraformVariables := t;
     adminKubeconfig := kubeconfig_admin |}.

Definition demo_aws : Parents :=
  parents_of (config "demo" "c0ffee-0042" (aws "us-test-1")) tfvars.

Definition demo_unset : Parents :=
  parents_of (config "demo" "c0ffee-0042" no_platform) tfvars.

Definition demo_no_tfvars : Parents :=
  parents_of (config "demo" "c0ffee-0042" (aws "us-test-1")) no_tfvars.

Definition fresh : Cluster := {| FileList := [] |}.

End scripted.

(** ** A world with directories

    The scripted answers over a world that is the list of the
    directories there are: [ioutil.TempDir] makes one, [os.RemoveAll]
    removes it - or fails with [removal] and leaves it. *)
Module on_disk.

Import scripted.

Definition env (sc : Script) (removal : option foreign) : Env (list string) :=
  {| os_TempDir := fun _ => "/tmp";
     ioutil_TempDir := fun _ _ w =>
       (tempdir sc,
        match tempdir sc with
        | inl dir => dir :: w
        | inr _ => w
        end);
     os_RemoveAll := fun path w =>
       match removal with
       | None => (None, List.filter (fun dir => negb (String.eqb dir path)) w)
       | Some err => (Some err, w)
       end;
     ioutil_WriteFile := fun _ _ _ w => (write sc, w);
     ioutil_ReadFile := fun _ w => (read sc, w);
     filepath_Join := fun a b => a +:+ "/" +:+ b;
     data_Unpack := fun _ uri w =>
       (if String.eqb uri "config.tf" then unpack_config sc
        else unpack_platform sc, w);
     terraform_Init := fun _ w => (init sc, w);
     terraform_Apply := fun dir w =>
       ((dir +:+ "/terraform.tfstate", apply sc), w);
     json_Marshal := marshal sc;
     Platform_Name := platform_name |}.


End on_disk.

(** ** Vocabulary of the properties *)


(** The working directory is staged: the temporary directory was created,
    the variables file written into it and the platform data unpacked
    into it (lines 59-73 went through). *)
Definition working_dir_staged (tr : list Event) : Prop :=
  exists dir prefix tmpDir filename data perm uri rest,
    tr = EvTempDir dir prefix (inl tmpDir)
           :: EvWriteFile filename data perm None
           :: EvUnpack tmpDir uri None
           :: rest.

(** None of the recognized platform sections is set. *)
Definition no_platform_set (config : types.InstallConfig.t) : Prop :=
  let p := types.InstallConfig.Platform config in
  types.Platform.AWS p = None
  /\ types.Platform.OpenStack p = None
  /\ types.Platform.Libvirt p = None.

(** Neither [terraform.Init] nor [terraform.Apply] was called. *)
Definition terraform_not_invoked (tr : list Event) : Prop :=
  (forall dir r, ~ In (EvInit dir r) tr) /\ (forall dir r, ~ In (EvApply dir r) tr).

(** The files a call appended to the receiver's list. *)
Definition staged_files (c : Cluster) (after : Cluster) (new : list File) : Prop :=
  FileList after = FileList c ++ new.

(** The metadata record of a cluster on AWS: its name, and an AWS section
    with the region and an identifier map that holds the cluster ID under
    the key tectonicClusterID. *)
Definition aws_metadata (name region clusterID : string) : types.ClusterMetadata.t :=
  {| types.ClusterMetadata.ClusterName := name;
     types.ClusterMetadata.ClusterPlatformMetadata :=
       {| types.ClusterPlatformMetadata.AWS :=
            Some {| types.ClusterAWSPlatformMetadata.Region := region;
                    types.ClusterAWSPlatformMetadata.Identifier :=
                      {[ "tectonicClusterID" := clusterID ]} |};
          types.ClusterPlatformMetadata.OpenStack := None;
          types.ClusterPlatformMetadata.Libvirt := None |} |}.

Definition describes_aws (md : types.ClusterMetadata.t)
    (name region clusterID : string) : Prop :=
  types.ClusterMetadata.ClusterName md = name
  /\ exists aws,
       types.ClusterPlatformMetadata.AWS
         (types.ClusterMetadata.ClusterPlatformMetadata md) = Some aws
       /\ types.ClusterAWSPlatformMetadata.Region aws = region
       /\ types.ClusterAWSPlatformMetadata.Identifier aws !! "tectonicClusterID"
          = Some clusterID.

(** The metadata record that carries the cluster name and no platform
    section. *)
Definition bare_metadata (name : string) : types.ClusterMetadata.t :=
  {| types.ClusterMetadata.ClusterName := name;
     types.ClusterMetadata.ClusterPlatformMetadata :=
       {| types.ClusterPlatformMetadata.AWS := None;
          types.ClusterPlatformMetadata.OpenStack := None;
          types.ClusterPlatformMetadata.Libvirt := None |} |}.

(** The platform-specific package is the one [data.Unpack] is asked for
    under the name [Platform.Name] gives.  "Classified before
    materialized": whenever that package is unpacked, the switch over the
    platform sections has been evaluated earlier in the run. *)
Definition classified_before_unpacked {W} (E : Env W) (parents : Parents)
    (tr : list Event) : Prop :=
  let platform :=
    Platform_Name E (types.InstallConfig.Platform
                       (installconfig.Config (installConfig parents))) in
  forall before base r after,
    tr = before ++ EvUnpack base platform r :: after ->
    exists selected, In (EvSwitch selected) before.

(** ** Vocabulary of further properties of [Generate] and [Load] *)

(** The error a step contributes when it fails, with the context
    [Generate] gives it: what lines 61, 67, 72, 116, 120, 128, 133, 144
    and 86 make of the answers.  The error of [os.RemoveAll] is dropped
    (line 63), and a log line is not a step. *)
Definition failure (ev : Event) : option error :=
  match ev with
  | EvTempDir _ _ (inr e) =>
      Some (Wrap (Foreign e) "failed to create temp dir for terraform execution")
  | EvWriteFile _ _ _ (Some e) =>
      Some (Wrap (Foreign e) "failed to write terraform.tfvars file")
  | EvUnpack _ _ (Some e) => Some (Foreign e)
  | EvSwitch None => Some (New "no known platform")
  | EvInit _ (Some e) => Some (Wrap (Foreign e) "failed to initialize terraform")
  | EvApply _ (_, Some e) => Some (Wrap (Foreign e) "failed to run terraform")
  | EvReadFile _ (inr e) => Some (Foreign e)
  | EvMarshal _ (inr e) => Some (Wrap (Foreign e) "failed to Marshal ClusterMetadata")
  | _ => None
  end.



(** How often a kind of entry occurs in a trace. *)
Definition occurrences (kind : Event -> bool) (tr : list Event) : nat :=
  length (List.filter kind tr).

Definition is_TempDir (ev : Event) : bool :=
  match ev with EvTempDir _ _ _ => true | _ => false end.
Definition is_RemoveAll (ev : Event) : bool :=
  match ev with EvRemoveAll _ _ => true | _ => false end.
Definition is_WriteFile (ev : Event) : bool :=
  match ev with EvWriteFile _ _ _ _ => true | _ => false end.
Definition is_ReadFile (ev : Event) : bool :=
  match ev with EvReadFile _ _ => true | _ => false end.
Definition is_Unpack (ev : Event) : bool :=
  match ev with EvUnpack _ _ _ => true | _ => false end.
Definition is_Init (ev : Event) : bool :=
  match ev with EvInit _ _ => true | _ => false end.
Definition is_Apply (ev : Event) : bool :=
  match ev with EvApply _ _ => true | _ => false end.
Definition is_Marshal (ev : Event) : bool :=
  match ev with EvMarshal _ _ => true | _ => false end.

(** A fetcher that serves the files of a list: the first one of that
    name. *)
#[export] Instance files_fetcher : FileFetcher (list File) :=
  fun files name => List.find (fun f => String.eqb (Filename f) name) files.

(** A fetcher serves a list of files when it finds a file under a name
    exactly if the list has one of that name. *)
Definition serves `{FileFetcher F} (f : F) (files : list File) : Prop :=
  forall name,
    is_Some (FetchByName f name)
    <-> exists file, In file files /\ Filename file = name.

(** The world [Generate] leaves. *)
Definition world_of {W} (r : Outcome * State W) : W := world (snd r).



(** ** The bootstrap script (bootkube.sh, a template)

    The script runs under [set -e]: a simple command that fails ends the
    script, unless it is the condition of an [if] or of the [until]
    loop.  Every simple command is an oracle of the host - its exit
    status and what it prints on standard output - and is recorded in a
    trace with its words as the shell passes them, a redirection left
    out.  The words are those the shell's expansions give:
    - braces are expanded;
    - [$(command)] is what the command printed, without the line feeds
      at its end (and without NUL bytes);
    - a variable in double quotes is one word, whatever its value;
    - a variable outside quotes is split into fields at blanks, tabs and
      line feeds, and each field that matches path names is replaced by
      them, as is a pattern written in the script ([cp dir/* ...]);
      which path names match is an oracle of the host.
    The fields of the template are pasted into the text of the script;
    they stand for the single words they are meant to be.  The loop that
    waits for etcd may run forever; it is a function of the number of
    rounds it is allowed. *)
Module bootkube.

(** The fields the template is rendered with. *)
Record Template : Type := {
  ReleaseImage : string;
  EtcdCluster : string;
  EtcdCertSignerImage : string;
  EtcdctlImage : string
}.

Abbreviation command := (list string).

(** A simple command that was executed: its words, its exit status, its
    standard output. *)
Inductive Ran : Type :=
| ran (argv : command) (status : nat) (stdout : string).

(** The host: what a command does to the world, with its exit status
    and its standard output; the path names that match a word taken as
    a pattern, none when nothing matches or the word has no pattern
    character; and the working directory of the script. *)
Record Host (W : Type) : Type := {
  execute : command -> W -> nat * string * W;
  pathnames : string -> W -> list string;
  PWD : string
}.
Arguments execute {W}.
Arguments pathnames {W}.
Arguments PWD {W}.

(** The shell: the world, what ran so far, and the command of the ERR
    trap, if one is set. *)
Record Shell (W : Type) : Type := {
  host_world : W;
  history : list Ran;
  err_trap : option command
}.
Arguments host_world {W}.
Arguments history {W}.
Arguments err_trap {W}.

(** A piece of script goes on with a value, or the script has ended on a
    failed command, or the rounds allowed to the loop are used up. *)
Inductive Result (A : Type) : Type :=
| Done (a : A)
| Aborted
| OutOfRounds.
Arguments Done {A}.
Arguments Aborted {A}.
Arguments OutOfRounds {A}.

Definition Sh (W A : Type) : Type := Shell W -> Result A * Shell W.

Definition pure {W A} (a : A) : Sh W A := fun s => (Done a, s).

Definition and_then {W A B} (m : Sh W A) (k : A -> Sh W B) : Sh W B :=
  fun s =>
    match m s with
    | (Done a, s') => k a s'
    | (Aborted, s') => (Aborted, s')
    | (OutOfRounds, s') => (OutOfRounds, s')
    end.

Notation "'let$' x := m 'in' k" := (and_then m (fun x => k))
  (at level 10, x name, m at level 100, k at level 200).
Notation "'let$' ' p := m 'in' k" :=
  (and_then m (fun x => match x with p => k end))
  (at level 10, p pattern, m at level 100, k at level 200).
Notation "'sh' m ; k" := (and_then m (fun _ => k))
  (at level 10, m at level 100, k at level 200).

(** *** Expansions *)

Definition NUL : ascii := "000"%char.
Definition line_feed : ascii := "010"%char.
Definition tab : ascii := "009"%char.
Definition blank : ascii := " "%char.

Fixpoint without_NUL (s : string) : string :=
  match s with
  | EmptyString => EmptyString
  | String c rest =>
      if Ascii.eqb c NUL then without_NUL rest else String c (without_NUL rest)
  end.

(** The string without the line feeds at its end. *)
Fixpoint chomp (s : string) : string :=
  match s with
  | EmptyString => EmptyString
  | String c rest =>
      match chomp rest with
      | EmptyString =>
          if Ascii.eqb c line_feed then EmptyString else String c EmptyString
      | rest' => String c rest'
      end
  end.

(** The value of [$(command)], from what the command printed. *)
Definition substituted (stdout : string) : string := chomp (without_NUL stdout).

(** The characters of [$IFS], which the script leaves as it is. *)
Definition is_IFS (c : ascii) : bool :=
  Ascii.eqb c blank || Ascii.eqb c tab || Ascii.eqb c line_feed.

(** Field splitting of [value], expanded outside quotes right after
    [word], the part of a word written before it: [--image=${X}] gives
    the fields of [X] with [--image=] before the first one, or on its
    own when [X] is empty or starts with a blank. *)
Fixpoint split_fields (value word : string) : list string :=
  match value with
  | EmptyString =>
      match word with
      | EmptyString => []
      | _ => [word]
      end
  | String c rest =>
      if is_IFS c then
        match word with
        | EmptyString => split_fields rest EmptyString
        | _ => word :: split_fields rest EmptyString
        end
      else split_fields rest (word +:+ String c EmptyString)
  end.

Section Script.

Context {W : Type} (H : Host W) (T : Template).

(** A command whose status decides something: the condition of an [if]
    or of [until].  Its failure does not end the script. *)
Definition status_of (argv : command) : Sh W (nat * string) :=
  fun s =>
    let '(status, stdout, w) := execute H argv (host_world s) in
    (Done (status, stdout),
     {| host_world := w;
        history := history s ++ [ran argv status stdout];
        err_trap := err_trap s |}).

(** What [set -e] does on a failed command: the ERR trap runs, if one is
    set, and the script ends. *)
Definition errexit {A} : Sh W A :=
  fun s =>
    match err_trap s with
    | Some handler =>
        let '(status, stdout, w) := execute H handler (host_world s) in
        (Aborted,
         {| host_world := w;
            history := history s ++ [ran handler status stdout];
            err_trap := err_trap s |})
    | None => (Aborted, s)
    end.

(** A command on a line of its own; its value is what it printed. *)
Definition command_line (argv : command) : Sh W string :=
  let$ '(status, stdout) := status_of argv in
  match status with
  | O => pure stdout
  | S _ => errexit
  end.

(** Pathname expansion of a word: the path names that match it, or the
    word as it is when there are none. *)
Definition glob (word : string) (w : W) : list string :=
  match pathnames H word w with
  | [] => [word]
  | names => names
  end.

(** The words of [prefix${X}] outside quotes, for the value of [X]. *)
Definition unquoted (prefix value : string) (w : W) : list string :=
  flat_map (fun word => glob word w) (split_fields value prefix).

(** A command on a line of its own whose words depend on the path
    names there are when the shell comes to it. *)
Definition command_line_in (words : W -> command) : Sh W string :=
  fun s => command_line (words (host_world s)) s.

(** [trap "handler" ERR] *)
Definition trap_ERR (handler : command) : Sh W unit :=
  fun s => (Done tt, {| host_world := host_world s; history := history s;
                        err_trap := Some handler |}).

Definition echo (line : string) : Sh W unit :=
  sh command_line ["echo"; line]; pure tt.

(** Lines 6-17: the release image is pulled if it is not there, and
    resolved to its digest if one can be had. *)
Definition inspect_digest : command :=
  ["podman"; "inspect"; ReleaseImage T; "-f"; "{{ index .RepoDigests 0 }}"].

Definition resolve_release : Sh W string :=
  let$ '(missing, _) := status_of ["podman"; "inspect"; ReleaseImage T] in
  sh match missing with
     | O => pure tt
     | S _ =>
         sh echo "Pulling release image...";
         sh command_line ["podman"; "pull"; ReleaseImage T];
         pure tt
     end;
  let$ '(unresolved, stdout) := status_of inspect_digest in
  let release := substituted stdout in
  match unresolved, release with
  | O, String _ _ => pure release
  | _, _ =>
      sh echo "Warning: Could not resolve release image to pull by digest";
      pure (ReleaseImage T)
  end.

(** [podman run --rm ${release} image NAME], lines 19-34: [${release}]
    is not quoted. *)
Definition image_query (release name : string) (w : W) : command :=
  "podman" :: "run" :: "--rm" :: unquoted "" release w ++ ["image"; name].

(** [$(podman run --rm ${release} image NAME)] *)
Definition image (release name : string) : Sh W string :=
  let$ stdout := command_line_in (image_query release name) in
  pure (substituted stdout).

(** The images of lines 19-34. *)
Record Images : Type := {
  MACHINE_CONFIG_OPERATOR_IMAGE : string;
  MACHINE_CONFIG_CONTROLLER_IMAGE : string;
  MACHINE_CONFIG_SERVER_IMAGE : string;
  MACHINE_CONFIG_DAEMON_IMAGE : string;
  MACHINE_CONFIG_OSCONTENT : string;
  MACHINE_CONFIG_ETCD_IMAGE : string;
  MACHINE_CONFIG_SETUP_ETCD_ENV_IMAGE : string;
  KUBE_APISERVER_OPERATOR_IMAGE : string;
  KUBE_CONTROLLER_MANAGER_OPERATOR_IMAGE : string;
  KUBE_SCHEDULER_OPERATOR_IMAGE : string;
  OPENSHIFT_HYPERSHIFT_IMAGE : string;
  OPENSHIFT_HYPERKUBE_IMAGE : string;
  CLUSTER_BOOTSTRAP_IMAGE : string
}.

Definition component_images (release : string) : Sh W Images :=
  let$ mco := image release "machine-config-operator" in
  let$ mcc := image release "machine-config-controller" in
  let$ mcs := image release "machine-config-server" in
  let$ mcd := image release "machine-config-daemon" in
  let$ osc := image release "machine-os-content" in
  let$ etcd := image release "etcd" in
  let$ env := image release "setup-etcd-environment" in
  let$ kao := image release "cluster-kube-apiserver-operator" in
  let$ kcmo := image release "cluster-kube-controller-manager-operator" in
  let$ kso := image release "cluster-kube-scheduler-operator" in
  let$ hypershift := image release "hypershift" in
  let$ hyperkube := image release "hyperkube" in
  let$ bootstrap := image release "cluster-bootstrap" in
  pure {| MACHINE_CONFIG_OPERATOR_IMAGE := mco;
          MACHINE_CONFIG_CONTROLLER_IMAGE := mcc;
          MACHINE_CONFIG_SERVER_IMAGE := mcs;
          MACHINE_CONFIG_DAEMON_IMAGE := mcd;
          MACHINE_CONFIG_OSCONTENT := osc;
          MACHINE_CONFIG_ETCD_IMAGE := etcd;
          MACHINE_CONFIG_SETUP_ETCD_ENV_IMAGE := env;
          KUBE_APISERVER_OPERATOR_IMAGE := kao;
          KUBE_CONTROLLER_MANAGER_OPERATOR_IMAGE := kcmo;
          KUBE_SCHEDULER_OPERATOR_IMAGE := kso;
          OPENSHIFT_HYPERSHIFT_IMAGE := hypershift;
          OPENSHIFT_HYPERKUBE_IMAGE := hyperkube;
          CLUSTER_BOOTSTRAP_IMAGE := bootstrap |}.

(** [if [ ! -d dir ]; then ...; fi]: the test succeeds when there is no
    such directory. *)
Definition no_directory (dir : string) : command := ["["; "!"; "-d"; dir; "]"].

Definition unless_directory (dir : string) (body : Sh W unit) : Sh W unit :=
  let$ '(status, _) := status_of (no_directory dir) in
  match status with
  | O => body
  | S _ => pure tt
  end.

Definition assets : string := PWD H +:+ ":/assets:z".

(** Lines 38-54. *)
Definition render_cvo_command (release : string) : command :=
  ["podman"; "run"; "--volume"; assets; release; "render";
   "--output-dir=/assets/cvo-bootstrap"; "--release-image=" +:+ release].

Definition render_cvo (release : string) : Sh W unit :=
  unless_directory "cvo-bootstrap" (
    sh echo "Rendering Cluster Version Operator Manifests...";
    sh command_line (render_cvo_command release);
    sh command_line_in
         (fun w => "cp" :: glob "cvo-bootstrap/bootstrap/*" w
                   ++ ["bootstrap-manifests/"]);
    sh command_line_in
         (fun w => "cp" :: glob "cvo-bootstrap/manifests/*" w
                   ++ ["manifests/"]);
    sh command_line ["cp"; "auth/kubeconfig"; "/etc/kubernetes/kubeconfig"];
    pure tt).

(** Lines 56-76. *)
Definition render_kube_apiserver_command (i : Images) (w : W) : command :=
  "podman" :: "run" :: "--volume" :: assets :: KUBE_APISERVER_OPERATOR_IMAGE i
  :: "/usr/bin/cluster-kube-apiserver-operator" :: "render"
  :: "--manifest-etcd-serving-ca=etcd-client-ca.crt"
  :: ("--manifest-etcd-server-urls=" +:+ EtcdCluster T)
  :: unquoted "--manifest-image=" (OPENSHIFT_HYPERSHIFT_IMAGE i) w
  ++ [ "--asset-input-dir=/assets/tls";
       "--asset-output-dir=/assets/kube-apiserver-bootstrap";
       "--config-output-file=/assets/kube-apiserver-bootstrap/config";
       "--cluster-config-file=/assets/openshift/99_openshift-cluster-api_cluster.yaml" ].

Definition render_kube_apiserver (i : Images) : Sh W unit :=
  unless_directory "kube-apiserver-bootstrap" (
    sh echo "Rendering Kubernetes API server core manifests...";
    sh command_line_in (render_kube_apiserver_command i);
    sh command_line ["cp"; "kube-apiserver-bootstrap/config";
                     "/etc/kubernetes/bootstrap-configs/kube-apiserver-config.yaml"];
    sh command_line_in
         (fun w => "cp" :: glob "kube-apiserver-bootstrap/bootstrap-manifests/*" w
                   ++ ["bootstrap-manifests/"]);
    sh command_line_in
         (fun w => "cp" :: glob "kube-apiserver-bootstrap/manifests/*" w
                   ++ ["manifests/"]);
    pure tt).

(** Lines 78-96. *)
Definition render_kube_controller_manager_command (i : Images) (w : W)
  : command :=
  "podman" :: "run" :: "--volume" :: assets
  :: KUBE_CONTROLLER_MANAGER_OPERATOR_IMAGE i
  :: "/usr/bin/cluster-kube-controller-manager-operator" :: "render"
  :: unquoted "--manifest-image=" (OPENSHIFT_HYPERKUBE_IMAGE i) w
  ++ [ "--asset-input-dir=/assets/tls";
       "--asset-output-dir=/assets/kube-controller-manager-bootstrap";
       "--config-output-file=/assets/kube-controller-manager-bootstrap/config";
       "--cluster-config-file=/assets/openshift/99_openshift-cluster-api_cluster.yaml" ].

Definition render_kube_controller_manager (i : Images) : Sh W unit :=
  unless_directory "kube-controller-manager-bootstrap" (
    sh echo "Rendering Kubernetes Controller Manager core manifests...";
    sh command_line_in (render_kube_controller_manager_command i);
    sh command_line ["cp"; "kube-controller-manager-bootstrap/config";
                     "/etc/kubernetes/bootstrap-configs/kube-controller-manager-config.yaml"];
    sh command_line_in
         (fun w => "cp" :: glob "kube-controller-manager-bootstrap/bootstrap-manifests/*" w
                   ++ ["bootstrap-manifests/"]);
    sh command_line_in
         (fun w => "cp" :: glob "kube-controller-manager-bootstrap/manifests/*" w
                   ++ ["manifests/"]);
    pure tt).

(** Lines 98-115. *)
Definition render_kube_scheduler_command (i : Images) (w : W) : command :=
  "podman" :: "run" :: "--volume" :: assets :: KUBE_SCHEDULER_OPERATOR_IMAGE i
  :: "/usr/bin/cluster-kube-scheduler-operator" :: "render"
  :: unquoted "--manifest-image=" (OPENSHIFT_HYPERKUBE_IMAGE i) w
  ++ [ "--asset-input-dir=/assets/tls";
       "--asset-output-dir=/assets/kube-scheduler-bootstrap";
       "--config-output-file=/assets/kube-scheduler-bootstrap/config" ].

Definition render_kube_scheduler (i : Images) : Sh W unit :=
  unless_directory "kube-scheduler-bootstrap" (
    sh echo "Rendering Kubernetes Scheduler core manifests...";
    sh command_line_in (render_kube_scheduler_command i);
    sh command_line ["cp"; "kube-scheduler-bootstrap/config";
                     "/etc/kubernetes/bootstrap-configs/kube-scheduler-config.yaml"];
    sh command_line_in
         (fun w => "cp" :: glob "kube-scheduler-bootstrap/bootstrap-manifests/*" w
                   ++ ["bootstrap-manifests/"]);
    sh command_line_in
         (fun w => "cp" :: glob "kube-scheduler-bootstrap/manifests/*" w
                   ++ ["manifests/"]);
    pure tt).

(** Lines 117-154. *)
Definition render_mco_command (i : Images) (w : W) : command :=
  "podman" :: "run" :: "--user" :: "0" :: "--volume" :: assets
  :: MACHINE_CONFIG_OPERATOR_IMAGE i :: "bootstrap"
  :: "--etcd-ca=/assets/tls/etcd-client-ca.crt"
  :: "--root-ca=/assets/tls/root-ca.crt"
  :: "--config-file=/assets/manifests/cluster-config.yaml"
  :: "--dest-dir=/assets/mco-bootstrap"
  :: "--pull-secret=/assets/manifests/pull.json"
  :: unquoted "--etcd-image=" (MACHINE_CONFIG_ETCD_IMAGE i) w
  ++ unquoted "--setup-etcd-env-image=" (MACHINE_CONFIG_SETUP_ETCD_ENV_IMAGE i) w
  ++ unquoted "--machine-config-controller-image="
       (MACHINE_CONFIG_CONTROLLER_IMAGE i) w
  ++ unquoted "--machine-config-server-image=" (MACHINE_CONFIG_SERVER_IMAGE i) w
  ++ unquoted "--machine-config-daemon-image=" (MACHINE_CONFIG_DAEMON_IMAGE i) w
  ++ unquoted "--machine-config-oscontent-image=" (MACHINE_CONFIG_OSCONTENT i) w.

Definition render_mco (i : Images) : Sh W unit :=
  unless_directory "mco-bootstrap" (
    sh echo "Rendering MCO manifests...";
    sh command_line_in (render_mco_command i);
    sh command_line ["mkdir"; "--parents"; "/etc/mcc/bootstrap";
                     "/etc/mcs/bootstrap"; "/etc/kubernetes/manifests"];
    sh command_line_in
         (fun w => "cp" :: glob "mco-bootstrap/bootstrap/manifests/*" w
                   ++ ["/etc/mcc/bootstrap/"]);
    sh command_line_in
         (fun w => "cp" :: glob "openshift/*" w
                   ++ ["/etc/mcc/bootstrap/"]);
    sh command_line ["cp"; "auth/kubeconfig-kubelet"; "/etc/mcs/kubeconfig"];
    sh command_line ["cp";
                     "mco-bootstrap/bootstrap/machineconfigoperator-bootstrap-pod.yaml";
                     "/etc/kubernetes/manifests/"];
    sh command_line_in
         (fun w => "cp" :: glob "mco-bootstrap/manifests/*" w
                   ++ ["manifests/"]);
    sh command_line ["mkdir"; "--parents"; "/etc/ssl/mcs/"];
    sh command_line ["cp"; "tls/machine-config-server.crt"; "/etc/ssl/mcs/tls.crt"];
    sh command_line ["cp"; "tls/machine-config-server.key"; "/etc/ssl/mcs/tls.key"];
    pure tt).

(** Lines 162-181. *)
Definition remove_etcd_signer : command :=
  ["podman"; "rm"; "--force"; "etcd-signer"].

Definition etcd_signer : command :=
  ["podman"; "run"; "--name"; "etcd-signer"; "--detach";
   "--volume"; "/opt/openshift/tls:/opt/openshift/tls:ro,z";
   "--network"; "host"; EtcdCertSignerImage T; "serve";
   "--cacrt=/opt/openshift/tls/etcd-client-ca.crt";
   "--cakey=/opt/openshift/tls/etcd-client-ca.key";
   "--servcrt=/opt/openshift/tls/apiserver.crt";
   "--servkey=/opt/openshift/tls/apiserver.key";
   "--address=0.0.0.0:6443"; "--csrdir=/tmp";
   "--peercertdur=26280h"; "--servercertdur=26280h"].

Definition start_etcd_signer : Sh W unit :=
  sh echo "Starting etcd certificate signer...";
  sh trap_ERR remove_etcd_signer;
  sh command_line etcd_signer;
  pure tt.

(** Lines 183-204. *)
Definition endpoint_health : command :=
  ["podman"; "run"; "--rm"; "--network"; "host"; "--name"; "etcdctl";
   "--env"; "ETCDCTL_API=3";
   "--volume"; "/opt/openshift/tls:/opt/openshift/tls:ro,z";
   EtcdctlImage T; "/usr/local/bin/etcdctl"; "--dial-timeout=10m";
   "--cacert=/opt/openshift/tls/etcd-client-ca.crt";
   "--cert=/opt/openshift/tls/etcd-client.crt";
   "--key=/opt/openshift/tls/etcd-client.key";
   "--endpoints=" +:+ EtcdCluster T; "endpoint"; "health"].

Fixpoint until_healthy (rounds : nat) : Sh W unit :=
  match rounds with
  | O => fun s => (OutOfRounds, s)
  | S rounds =>
      let$ '(status, _) := status_of endpoint_health in
      match status with
      | O => pure tt
      | S _ =>
          sh echo "etcdctl failed. Retrying in 5 seconds...";
          sh command_line ["sleep"; "5"];
          until_healthy rounds
      end
  end.

Definition wait_for_etcd (rounds : nat) : Sh W unit :=
  sh echo "Waiting for etcd cluster...";
  until_healthy rounds.

(** Lines 206-223. *)
Definition cluster_bootstrap (i : Images) : command :=
  ["podman"; "run"; "--rm"; "--volume"; assets;
   "--volume"; "/etc/kubernetes:/etc/kubernetes:z"; "--network=host";
   CLUSTER_BOOTSTRAP_IMAGE i; "start"; "--asset-dir=/assets"; "--required-pods";
   "openshift-kube-apiserver/openshift-kube-apiserver,openshift-kube-scheduler/openshift-kube-scheduler,openshift-kube-controller-manager/openshift-kube-controller-manager,openshift-cluster-version/cluster-version-operator"].

Definition bootkube_done : command := ["touch"; "/opt/openshift/.bootkube.done"].

Definition start_cluster_bootstrap (i : Images) : Sh W unit :=
  sh echo "etcd cluster up. Killing etcd certificate signer...";
  sh command_line remove_etcd_signer;
  sh command_line ["rm"; "--force";
                   "/etc/kubernetes/manifests/machineconfigoperator-bootstrap-pod.yaml"];
  sh echo "Starting cluster-bootstrap...";
  sh command_line (cluster_bootstrap i);
  sh command_line bootkube_done;
  pure tt.

(** The script, top to bottom. *)
Definition script (rounds : nat) : Sh W unit :=
  sh command_line ["mkdir"; "--parents"; "/etc/kubernetes/manifests";
                   "/etc/kubernetes/bootstrap-configs";
                   "/etc/kubernetes/bootstrap-manifests"];
  let$ release := resolve_release in
  let$ i := component_images release in
  sh command_line ["mkdir"; "--parents"; "./bootstrap-manifests"; "./manifests"];
  sh render_cvo release;
  sh render_kube_apiserver i;
  sh render_kube_controller_manager i;
  sh render_kube_scheduler i;
  sh render_mco i;
  sh start_etcd_signer;
  sh wait_for_etcd rounds;
  start_cluster_bootstrap i.

(** The script started in a world, nothing run yet, no trap set. *)
Definition start (w : W) : Shell W :=
  {| host_world := w; history := []; err_trap := None |}.

End Script.

End bootkube.

(** ** Vocabulary of the properties of the bootstrap script *)
Module bootkube_spec.

Import bootkube.

Definition argv_of (e : Ran) : command := match e with ran argv _ _ => argv end.
Definition status_of_ran (e : Ran) : nat := match e with ran _ status _ => status end.

(** The history ends with these entries. *)
Definition ends_with (l suffix : list Ran) : Prop :=
  exists before, l = before ++ suffix.

(** Commands of a kind run only at a point where what ran before
    satisfies a condition. *)
Definition only_after (kind : command -> Prop) (before : list Ran -> Prop)
    (l : list Ran) : Prop :=
  forall pre e post, l = pre ++ e :: post -> kind (argv_of e) -> before pre.


(** The shell after one more command. *)
Definition after {W} (s : Shell W) (argv : command) (status : nat)
    (stdout : string) (w : W) : Shell W :=
  {| host_world := w;
     history := history s ++ [ran argv status stdout];
     err_trap := err_trap s |}.

(** The only ERR trap the script ever sets. *)
Definition trap_is_cleanup {W} (s : Shell W) : Prop :=
  forall handler, err_trap s = Some handler -> handler = remove_etcd_signer.

(** A piece of script that starts where [P] holds ends where [Q]
    holds. *)
Definition triple {W A} (P : Shell W -> Prop) (m : Sh W A)
    (Q : Result A -> Shell W -> Prop) : Prop :=
  forall s, P s -> Q (fst (m s)) (snd (m s)).

(** A piece of script keeps [I], and where it ends the script on a
    failed command, [R] holds. *)
Definition keeps {W A} (I R : Shell W -> Prop) (m : Sh W A) : Prop :=
  triple I m (fun r s => I s /\ (r = Aborted -> R s)).

(** [I] is kept by every command of the kind [ok], the trap it allows is
    of that kind, and [R] holds where [set -e] ends the script. *)
Definition closed {W} (I R : Shell W -> Prop) (ok : command -> Prop) : Prop :=
  (forall s argv status stdout w,
     I s -> ok argv -> I (after s argv status stdout w))
  /\ (forall s handler, I s -> err_trap s = Some handler -> ok handler)
  /\ (forall s, I s -> err_trap s = None -> R s)
  /\ (forall s handler status stdout w,
        I s -> err_trap s = Some handler -> R (after s handler status stdout w)).

(** The rendering steps: the directory each one is guarded by, and its
    rendering command, with the words it has in the world [w]. *)
Definition renders {W} (H : Host W) (T : Template) (release : string)
    (i : Images) (w : W) : list (string * command) :=
  [ ("cvo-bootstrap", render_cvo_command H release);
    ("kube-apiserver-bootstrap", render_kube_apiserver_command H T i w);
    ("kube-controller-manager-bootstrap",
     render_kube_controller_manager_command H i w);
    ("kube-scheduler-bootstrap", render_kube_scheduler_command H i w);
    ("mco-bootstrap", render_mco_command H i w) ].

(** One round of the wait for etcd that did not find it healthy: the
    check, the message, the sleep. *)
Definition failed_round (T : Template) (r : nat * string * string * string)
  : list Ran :=
  let '(status, out, out1, out2) := r in
  [ ran (endpoint_health T) (S status) out;
    ran ["echo"; "etcdctl failed. Retrying in 5 seconds..."] 0 out1;
    ran ["sleep"; "5"] 0 out2 ].

(** What the ERR trap adds to the history when [set -e] ends the
    script: the trap's command, if a trap is set. *)
Definition trapped (handler : option command) (l : list Ran) : Prop :=
  match handler with
  | Some argv => exists status stdout, l = [ran argv status stdout]
  | None => l = []
  end.

(** The round of the wait for etcd that ends the script: the check does
    not find etcd healthy, and then the message fails, or the message
    succeeds and the sleep fails; the trap runs last. *)
Definition fatal_round (T : Template) (handler : option command)
    (l : list Ran) : Prop :=
  exists status out tail,
    trapped handler tail
    /\ ((exists status1 out1,
           l = ran (endpoint_health T) (S status) out
               :: ran ["echo"; "etcdctl failed. Retrying in 5 seconds..."]
                    (S status1) out1
               :: tail)
        \/ (exists out1 status2 out2,
              l = ran (endpoint_health T) (S status) out
                  :: ran ["echo"; "etcdctl failed. Retrying in 5 seconds..."]
                       0 out1
                  :: ran ["sleep"; "5"] (S status2) out2
                  :: tail)).

(** The cluster-bootstrap container has just exited with status 0. *)
Definition bootstrap_succeeded {W} (H : Host W) (pre : list Ran) : Prop :=
  exists i stdout, last pre = Some (ran (cluster_bootstrap H i) 0 stdout).

(** The start of the etcd signer container was attempted. *)
Definition signer_attempted (T : Template) (l : list Ran) : Prop :=
  exists status stdout, In (ran (etcd_signer T) status stdout) l.

(** Before the trap is set and the signer is started, or with the trap
    set to the removal of the signer. *)
Definition signer_guarded {W} (T : Template) (s : Shell W) : Prop :=
  (err_trap s = None /\ ~ signer_attempted T (history s))
  \/ err_trap s = Some remove_etcd_signer.

(** The script ended on a failed command with the signer cleaned up: if
    its start had been attempted, the last command run is the removal of
    the signer container. *)
Definition signer_cleaned_up {W} (T : Template) (s : Shell W) : Prop :=
  signer_attempted T (history s) ->
  exists status stdout, last (history s) = Some (ran remove_etcd_signer status stdout).

(** A rendering command for the directory [dir]. *)
Definition renders_into {W} (H : Host W) (T : Template) (dir : string)
    (argv : command) : Prop :=
  exists release i w, In (dir, argv) (renders H T release i w).

(** The directory was just found missing and the step announced. *)
Definition found_missing (dir : string) (pre : list Ran) : Prop :=
  exists o1 line o2,
    ends_with pre [ran (no_directory dir) 0 o1; ran ["echo"; line] 0 o2].

(** Etcd was just found healthy, and the signer and the bootstrap pod
    manifest removed. *)
Definition etcd_up_signer_gone (T : Template) (pre : list Ran) : Prop :=
  exists o1 o2 o3 o4 o5,
    ends_with pre
      [ ran (endpoint_health T) 0 o1;
        ran ["echo"; "etcd cluster up. Killing etcd certificate signer..."] 0 o2;
        ran remove_etcd_signer 0 o3;
        ran ["rm"; "--force";
             "/etc/kubernetes/manifests/machineconfigoperator-bootstrap-pod.yaml"]
          0 o4;
        ran ["echo"; "Starting cluster-bootstrap..."] 0 o5 ].

Definition starts_cluster_bootstrap {W} (H : Host W) (argv : command) : Prop :=
  exists i, argv = cluster_bootstrap H i.

(** What the answer to the query for the digest makes of the release
    image: the digest if the query succeeded and printed one, the image
    as the template names it otherwise. *)
Definition resolution (T : Template) (status : nat) (stdout : string) : string :=
  match status, substituted stdout with
  | O, String _ _ => substituted stdout
  | _, _ => ReleaseImage T
  end.

(** The script has asked for the digest, and [release] is what the
    answer makes of the release image. *)
Definition resolved (T : Template) (release : string) (pre : list Ran) : Prop :=
  exists status stdout,
    In (ran (inspect_digest T) status stdout) pre
    /\ release = resolution T status stdout.

(** The commands that take the release image with the value [release]:
    a query for a component image, with the words [${release}] gives
    outside quotes, and the rendering of the cluster version operator,
    with the value as one word. *)
Definition uses_release {W} (H : Host W) (release : string) (argv : command)
  : Prop :=
  (exists name w, argv = image_query H release name w)
  \/ argv = render_cvo_command H release.



End bootkube_spec.

(** ** A host to run the script on *)
Module scripted_host.

Import bootkube.

Definition T0 : Template :=
  {| ReleaseImage := "registry/release:4.0";
     EtcdCluster := "https://etcd-0:2379";
     EtcdCertSignerImage := "registry/signer";
     EtcdctlImage := "registry/etcdctl" |}.

Definition same_command (a b : command) : bool := bool_decide (a = b).

(** What a command prints: the query for the digest prints one, a query
    for a component image prints the image, each on a line; everything
    else prints nothing. *)
Definition prints (argv : command) : string :=
  if same_command argv (inspect_digest T0) then
    "registry/release@sha256:0" +:+ String line_feed EmptyString
  else
    match argv with
    | [_; _; _; _; word; name] =>
        if String.eqb word "image" then
          "registry/" +:+ name +:+ String line_feed EmptyString
        else EmptyString
    | _ => EmptyString
    end.

(** The world is the number of health checks so far.  Etcd is unhealthy
    for the first [unhealthy] checks, the commands in [failing] fail,
    every other command succeeds.  Two files match [openshift/*], and no
    other pattern matches anything. *)
Definition host (unhealthy : nat) (failing : list command) : Host nat :=
  {| execute := fun argv checks =>
       if same_command argv (endpoint_health T0) then
         (if checks <? unhealthy then 1 else 0, EmptyString, S checks)
       else if existsb (same_command argv) failing then
         (1, EmptyString, checks)
       else (0, prints argv, checks);
     pathnames := fun word _ =>
       if String.eqb word "openshift/*" then
         ["openshift/99_binding.yaml"; "openshift/99_role.yaml"]
       else [];
     PWD := "/opt/openshift" |}.

Definition commands (l : list Ran) : list command :=
  map (fun e => match e with ran argv _ _ => argv end) l.

End scripted_host.

(** * Properties *)

(** [Load] looks at nothing but what the fetcher answers for
    terraform.tfstate, and leaves the receiver alone. *)
Lemma Load_fetcher `{FileFetcher F} (f : F) (c : Cluster) :
  Load c f
  = match FetchByName f "terraform.tfstate" with
    | Some _ =>
        (true, Some (New (fmt.q "terraform.tfstate" +:+ " already exisits")), c)
    | None => (false, None, c)
    end.
Proof. reflexivity. Qed.

(** C1. For every storage state, [Load] reports found = true together
    with the "already exists" error when terraform.tfstate is in storage,
    and found = false without error when it is not; found is true exactly
    when the file is present; and the asset is left as it was, so [Load]
    generates nothing. *)
Theorem Load_state_file (st : Storage) (c : Cluster) :
  match st !! "terraform.tfstate" with
  | Some _ =>
      exists e, Load c st = (true, Some e, c)
        /\ Error e = fmt.q "terraform.tfstate" +:+ " already exisits"
  | None => Load c st = (false, None, c)
  end
  /\ (fst (fst (Load c st)) = true <-> is_Some (st !! "terraform.tfstate"))
  /\ Files (snd (Load c st)) = Files c.
Proof.
  unfold Load, FetchByName, storage_fetcher, stateFileName.
  destruct (st !! "terraform.tfstate") as [d|] eqn:Hst; simpl.
  - split; [eexists; split; reflexivity|].
    split; [|reflexivity]. split; eauto.
  - split; [reflexivity|]. split; [|reflexivity].
    split; [discriminate|]. intros [x Hx]; discriminate.
Qed.


(** ** Running [Generate] symbolically

    [Generate] has no loop: a run is one of finitely many paths, picked by
    the answers of the environment.  [exec] walks them, one case split per
    answer. *)

Ltac unfold_Generate :=
  unfold run, outcome_of, trace_of, cluster_of, Generate, in_tmpDir,
    classify_and_run, run_terraform, deferred_metadata, defer, logrus,
    call_pure, call, ask, emit, append_FileList, bind, ret, Files,
    TerraformVariables_Files, fmt.Errorf in *.

Ltac exec_step :=
  match goal with
  | |- context [match ?x with _ => _ end] =>
      lazymatch x with
      | context [match _ with _ => _ end] => fail
      | _ => destruct x eqn:?
      end
  end.

Ltac exec := unfold_Generate; cbn; repeat (exec_step; cbn).

(** Which entry of a concrete trace a membership hypothesis speaks of. *)
Ltac entries :=
  repeat match goal with
    | H : False |- _ => contradiction
    | H : _ \/ _ |- _ => destruct H as [H|H]
    | H : @eq Event _ _ |- _ => first [discriminate H | injection H as ?; subst]
    | H : In _ [] |- _ => contradiction
    end.

(** ** Three runs *)

(** Every step succeeds: [Generate] returns nil, and the state file and
    the metadata are staged, in this order. *)
Example Generate_on_AWS :
  let r := run (scripted.env scripted.sunny) scripted.demo_aws scripted.fresh tt in
  outcome_of r = Return None
  /\ List.map Filename (Files (cluster_of r)) = ["terraform.tfstate"; "metadata.json"]
  /\ List.map json.Unmarshal (List.map Data (drop 1 (Files (cluster_of r))))
     = [Some (aws_metadata "demo" "us-test-1" "c0ffee-0042")].
Proof. vm_compute. repeat split. Qed.

(** Apply fails and the state file cannot be read: the apply error is
    returned, the read error is logged, the metadata is staged. *)
Example Generate_apply_and_read_fail :
  let r := run (scripted.env scripted.apply_and_read_fail) scripted.demo_aws
             scripted.fresh tt in
  outcome_of r
  = Return (Some (Wrap (Foreign (ForeignError "exit status 1"))
                    "failed to run terraform"))
  /\ In (EvLog ErrorLevel "Failed to read tfstate: no such file or directory")
        (trace_of r)
  /\ List.map Filename (Files (cluster_of r)) = ["metadata.json"].
Proof. vm_compute. repeat split. tauto. Qed.

(** No file in the terraform-variables asset: the indexing panics, the
    temporary directory is removed all the same, nothing is staged. *)
Example Generate_without_tfvars :
  let r := run (scripted.env scripted.sunny) scripted.demo_no_tfvars
             scripted.fresh tt in
  outcome_of r = Panicking (IndexOutOfRange 0 0)
  /\ trace_of r = [ EvTempDir "/tmp" "openshift-install-" (inl scripted.tmp);
                    EvRemoveAll scripted.tmp None ]
  /\ Files (cluster_of r) = [].
Proof. vm_compute. repeat split. Qed.



(** [os.RemoveAll] fails: [Generate] returns as if it had not, here
    with nil, and the directory is left behind. *)
Example Generate_with_failing_removal :
  let r := run (on_disk.env scripted.sunny
                  (Some (ForeignError "unlinkat: permission denied")))
             scripted.demo_aws scripted.fresh [] in
  outcome_of r = Return None
  /\ last (trace_of r)
     = Some (EvRemoveAll scripted.tmp
               (Some (ForeignError "unlinkat: permission denied")))
  /\ In scripted.tmp (world_of r).
Proof. vm_compute. repeat split. tauto. Qed.



(** C3, as the spec has it, fails: with no platform section set,
    [Generate] still returns the error of an earlier step when that step
    fails; here the temporary directory cannot be created, and the error
    is the wrapped error of [ioutil.TempDir]. *)
Lemma Generate_no_known_platform_counterexample :
  let parents := scripted.demo_unset in
  let r := run (scripted.env scripted.no_tempdir) parents scripted.fresh tt in
  no_platform_set (installconfig.Config (installConfig parents))
  /\ outcome_of r <> Return (Some (fmt.Errorf "no known platform"))
  /\ outcome_of r
     = Return (Some (Wrap (Foreign (ForeignError "mkdir /tmp: permission denied"))
                       "failed to create temp dir for terraform execution")).
Proof.
  cbv zeta. split; [repeat split|].
  split; [|reflexivity].
  vm_compute. discriminate.
Qed.

(** C3, amended.  When the install config sets none of the recognized
    platform sections, neither the init step nor the apply step of
    terraform is invoked and [Generate] does not return nil; and when the
    working directory was staged (temporary directory created, variables
    file written, platform data unpacked), what [Generate] returns is
    exactly the error "no known platform". *)
Theorem Generate_no_known_platform {W} (E : Env W) parents c w :
  no_platform_set (installconfig.Config (installConfig parents)) ->
  let r := run E parents c w in
  terraform_not_invoked (trace_of r)
  /\ outcome_of r <> Return None
  /\ (working_dir_staged (trace_of r) ->
      outcome_of r = Return (Some (fmt.Errorf "no known platform"))).
Proof.
  unfold no_platform_set, terraform_not_invoked, working_dir_staged.
  intros (Haws & Hopenstack & Hlibvirt). cbv zeta.
  unfold_Generate. rewrite Haws, Hopenstack, Hlibvirt. cbn.
  repeat (exec_step; cbn).
  all: repeat split; try discriminate.
  all: try (intros dir r H; entries; fail).
  all: try (intros (? & ? & ? & ? & ? & ? & ? & ? & H); discriminate H).
Qed.

Lemma Generate_no_known_platform_witness :
  let parents := scripted.demo_unset in
  let r := run (scripted.env scripted.sunny) parents scripted.fresh tt in
  no_platform_set (installconfig.Config (installConfig parents))
  /\ terraform_not_invoked (trace_of r)
  /\ outcome_of r = Return (Some (fmt.Errorf "no known platform")).
Proof.
  cbv zeta.
  assert (Hunset : no_platform_set
            (installconfig.Config (installConfig scripted.demo_unset)))
    by (repeat split).
  destruct (Generate_no_known_platform (scripted.env scripted.sunny)
              scripted.demo_unset scripted.fresh tt Hunset) as (Hnot & _ & Herr).
  split; [exact Hunset|]. split; [exact Hnot|].
  apply Herr. do 8 eexists. vm_compute. reflexivity.
Defined.



(** C5. When serialization of the metadata record fails, compare with
    the same call in the same world where serialization succeeds: if that
    call returns nil, the wrapped serialization error is what [Generate]
    returns; if it returns an earlier error, [Generate] returns that error
    unchanged and the serialization failure is logged. *)
Theorem Generate_marshal_failure {W} (E : Env W) parents c w md err2
    (encode : types.ClusterMetadata.t -> bytes) :
  In (EvMarshal md (inr err2)) (trace_of (run E parents c w)) ->
  let failure := Wrap (Foreign err2) "failed to Marshal ClusterMetadata" in
  let otherwise :=
    run (with_json_Marshal E (fun v => inl (encode v))) parents c w in
  match outcome_of otherwise with
  | Return None =>
      outcome_of (run E parents c w) = Return (Some failure)
      /\ ~ In (EvLog ErrorLevel (Error failure)) (trace_of (run E parents c w))
  | Return (Some earlier) =>
      outcome_of (run E parents c w) = Return (Some earlier)
      /\ In (EvLog ErrorLevel (Error failure)) (trace_of (run E parents c w))
  | Panicking _ => False
  end.
Proof.
  cbv zeta. unfold with_json_Marshal.
  exec; intros H; entries.
  all: split; [reflexivity|].
  all: try (cbn; tauto).
  all: intros H; entries.
Qed.

Lemma Generate_marshal_failure_witness :
  let E := scripted.env scripted.marshal_fails in
  let md := set_AWS (new_metadata (installconfig.Config (installConfig scripted.demo_aws)))
              {| types.ClusterAWSPlatformMetadata.Region := "us-test-1";
                 types.ClusterAWSPlatformMetadata.Identifier :=
                   {[ "tectonicClusterID" := "c0ffee-0042" ]} |} in
  let err2 := ForeignError "json: unsupported value" in
  In (EvMarshal md (inr err2))
     (trace_of (run E scripted.demo_aws scripted.fresh tt))
  /\ outcome_of (run E scripted.demo_aws scripted.fresh tt)
     = Return (Some (Wrap (Foreign err2) "failed to Marshal ClusterMetadata")).
Proof.
  cbv zeta.
  match goal with
  | |- ?P /\ _ => assert (Hin : P) by (vm_compute; tauto)
  end.
  split; [exact Hin|].
  exact (proj1 (Generate_marshal_failure _ _ _ _ _ _ (fun _ => []) Hin)).
Defined.

(** ** The JSON encoder and decoder on the metadata of an AWS cluster *)

Lemma append_cons (c : ascii) (a b : string) :
  String c a +:+ b = String c (a +:+ b).
Proof. reflexivity. Qed.

Lemma append_nil (b : string) : EmptyString +:+ b = b.
Proof. reflexivity. Qed.

Lemma append_assoc' (a b c : string) : (a +:+ b) +:+ c = a +:+ (b +:+ c).
Proof.
  induction a as [|x a IH]; [reflexivity|].
  rewrite !append_cons. f_equal. exact IH.
Qed.

Lemma append_empty_r (a : string) : a +:+ EmptyString = a.
Proof.
  induction a as [|x a IH]; [reflexivity|].
  rewrite append_cons. f_equal. exact IH.
Qed.

Lemma parse_chars_escaped (c : ascii) (s acc : string) :
  json.escaped c = true ->
  json.parse_chars (String json.backslash (String c s)) acc
  = json.parse_chars s (acc +:+ String c EmptyString).
Proof.
  intros Hc. cbn [json.parse_chars].
  change (Ascii.eqb json.backslash fmt.dquote) with false.
  change (Ascii.eqb json.backslash json.backslash) with true.
  cbv iota. rewrite Hc. reflexivity.
Qed.

Lemma parse_chars_plain (c : ascii) (s acc : string) :
  json.escaped c = false ->
  json.parse_chars (String c s) acc
  = json.parse_chars s (acc +:+ String c EmptyString).
Proof.
  intros Hc. unfold json.escaped in Hc.
  apply orb_false_iff in Hc as [Hq Hb].
  cbn [json.parse_chars]. rewrite Hq, Hb. reflexivity.
Qed.

(** Reading an escaped string up to its closing quote gives the string
    back. *)
Lemma parse_chars_escape (s acc rest : string) :
  json.parse_chars (json.escape s +:+ String fmt.dquote rest) acc
  = Some (acc +:+ s, rest).
Proof.
  revert acc. induction s as [|c s IH]; intros acc.
  - cbn [json.escape]. rewrite append_nil. cbn [json.parse_chars].
    change (Ascii.eqb fmt.dquote fmt.dquote) with true. cbv iota.
    now rewrite append_empty_r.
  - cbn [json.escape]. destruct (json.escaped c) eqn:Hc.
    + rewrite !append_cons, parse_chars_escaped by exact Hc.
      rewrite IH, append_assoc', append_cons, append_nil. reflexivity.
    + rewrite !append_cons, parse_chars_plain by exact Hc.
      rewrite IH, append_assoc', append_cons, append_nil. reflexivity.
Qed.

(** A quoted string, whatever follows it. *)
Lemma parse_quote (s rest : string) :
  json.parse_chars (json.escape s +:+ String fmt.dquote rest) EmptyString
  = Some (s, rest).
Proof. now rewrite parse_chars_escape, append_nil. Qed.

Lemma quote_append (s rest : string) :
  json.quote s +:+ rest
  = String fmt.dquote (json.escape s +:+ String fmt.dquote rest).
Proof.
  unfold json.quote.
  now rewrite append_cons, append_assoc', append_cons, append_nil.
Qed.

Lemma parse_value_quote (fuel : nat) (s rest : string) :
  json.parse_value (S fuel) (json.quote s +:+ rest) = Some (json.Str s, rest).
Proof.
  rewrite quote_append. cbn [json.parse_value].
  change (Ascii.eqb fmt.dquote fmt.dquote) with true.
  rewrite parse_quote. reflexivity.
Qed.

Lemma length_append' (a b : string) :
  String.length (a +:+ b) = String.length a + String.length b.
Proof.
  induction a as [|x a IH]; [reflexivity|].
  rewrite append_cons. cbn [String.length]. now rewrite IH.
Qed.

(** Induction on JSON values, with the hypothesis for every member of an
    object. *)
Fixpoint value_members_ind (P : json.value -> Prop)
    (HStr : forall s, P (json.Str s))
    (HObject : forall members,
       Forall (fun kv => P (snd kv)) members -> P (json.Object members))
    (v : json.value) : P v :=
  match v with
  | json.Str s => HStr s
  | json.Object members =>
      HObject members
        ((fix all (l : list (string * json.value))
            : Forall (fun kv => P (snd kv)) l :=
            match l with
            | [] => @List.Forall_nil _ _
            | kv :: l' =>
                @List.Forall_cons _ _ kv l'
                  (value_members_ind P HStr HObject (snd kv)) (all l')
            end) members)
  end.

(** The text of the members of an object, between its braces. *)
Lemma render_Object (members : list (string * json.value)) :
  json.render (json.Object members)
  = String "{" (String.concat ","
                  (List.map (fun kv => json.quote (fst kv) +:+ ":"
                                         +:+ json.render (snd kv)) members)
                +:+ "}").
Proof. reflexivity. Qed.

Lemma concat_cons_cons (sep x y : string) (l : list string) :
  String.concat sep (x :: y :: l) = x +:+ sep +:+ String.concat sep (y :: l).
Proof. reflexivity. Qed.

Lemma parse_members_render (members : list (string * json.value)) :
  Forall (fun kv =>
            forall fuel rest,
              String.length (json.render (snd kv)) <= fuel ->
              json.parse_value fuel (json.render (snd kv) +:+ rest)
              = Some (snd kv, rest)) members ->
  members <> [] ->
  forall fuel rest,
    String.length
      (String.concat ","
         (List.map (fun kv => json.quote (fst kv) +:+ ":"
                                +:+ json.render (snd kv)) members)) <= fuel ->
    json.parse_members fuel
      (String.concat ","
         (List.map (fun kv => json.quote (fst kv) +:+ ":"
                                +:+ json.render (snd kv)) members)
       +:+ String "}" rest)
    = Some (members, rest).
Proof.
  induction 1 as [|[k v] l Hv Hl IH]; [congruence|].
  intros _ fuel rest Hfuel. cbn [fst snd] in *.
  destruct l as [|kv' l].
  - cbn [List.map String.concat fst snd] in *.
    rewrite length_append', length_append' in Hfuel.
    unfold json.quote in Hfuel at 1. cbn [String.length] in Hfuel.
    destruct fuel as [|fuel]; [lia|].
    rewrite !append_assoc', quote_append. cbn [json.parse_members].
    change (Ascii.eqb fmt.dquote fmt.dquote) with true. cbv iota.
    rewrite parse_quote. rewrite append_cons, append_nil.
    rewrite Hv by (cbn [String.length] in Hfuel; lia).
    reflexivity.
  - cbn [List.map fst snd] in *. rewrite concat_cons_cons in Hfuel |- *.
    rewrite !length_append' in Hfuel.
    unfold json.quote in Hfuel at 1. cbn [String.length] in Hfuel.
    destruct fuel as [|fuel]; [lia|].
    rewrite !append_assoc', quote_append. cbn [json.parse_members].
    change (Ascii.eqb fmt.dquote fmt.dquote) with true. cbv iota.
    rewrite parse_quote. rewrite !append_cons, !append_nil.
    rewrite Hv by (cbn [String.length] in Hfuel; lia).
    rewrite IH by (first [discriminate | cbn [String.length] in Hfuel; lia]).
    reflexivity.
Qed.

Lemma parse_value_render (v : json.value) (fuel : nat) (rest : string) :
  String.length (json.render v) <= fuel ->
  json.parse_value fuel (json.render v +:+ rest) = Some (v, rest).
Proof.
  revert fuel rest.
  induction v as [s|members IH] using value_members_ind; intros fuel rest Hfuel.
  - cbn [json.render] in *. unfold json.quote in Hfuel. cbn [String.length] in Hfuel.
    destruct fuel as [|fuel]; [lia|]. apply parse_value_quote.
  - rewrite render_Object in *. cbn [String.length] in Hfuel.
    rewrite length_append' in Hfuel.
    destruct fuel as [|fuel]; [lia|].
    destruct members as [|[k v] l].
    + reflexivity.
    + rewrite append_cons, append_assoc', append_cons, append_nil.
      pose proof (parse_members_render ((k, v) :: l) IH ltac:(discriminate)
                    fuel rest ltac:(lia)) as Hm.
      revert Hm.
      destruct l as [|kv' l].
      * cbn [List.map String.concat fst snd].
        rewrite !append_assoc', quote_append.
        cbn [json.parse_value]. intros ->. reflexivity.
      * cbn [List.map fst snd]. rewrite concat_cons_cons.
        rewrite !append_assoc', quote_append.
        cbn [json.parse_value]. intros ->. reflexivity.
Qed.

Lemma parse_render (v : json.value) : json.parse (json.render v) = Some v.
Proof.
  unfold json.parse.
  rewrite <- (append_empty_r (json.render v)) at 2.
  rewrite parse_value_render by lia. reflexivity.
Qed.

Lemma to_strings_of_list (l : list (string * string)) :
  json.to_strings (List.map (fun kv => (fst kv, json.Str (snd kv))) l)
  = Some (list_to_map l).
Proof.
  induction l as [|[k s] l IH]; [reflexivity|].
  cbn [List.map json.to_strings fst snd]. rewrite IH. reflexivity.
Qed.

Lemma to_Identifier_of_Identifier (m : gmap string string) :
  json.to_Identifier (Some (json.of_Identifier m)) = Some m.
Proof.
  unfold json.of_Identifier, json.to_Identifier.
  rewrite to_strings_of_list, list_to_map_to_list. reflexivity.
Qed.

Lemma to_ClusterMetadata_of_ClusterMetadata (md : types.ClusterMetadata.t) :
  json.to_ClusterMetadata (json.of_ClusterMetadata md) = Some md.
Proof.
  destruct md as [name [[[region identifier]|] [[region' identifier']|] [[uri]|]]].
  all: cbn -[json.to_Identifier json.of_Identifier].
  all: rewrite ?to_Identifier_of_Identifier; reflexivity.
Qed.

(** What the encoder writes, the decoder reads back: for every metadata
    record, whatever its strings. *)
Lemma Unmarshal_Marshal (md : types.ClusterMetadata.t) (data : bytes) :
  json.Marshal md = inl data -> json.Unmarshal data = Some md.
Proof.
  unfold json.Marshal, json.Unmarshal. intros Hdata.
  assert (data = list_byte_of_string (json.render (json.of_ClusterMetadata md)))
    as -> by congruence.
  rewrite string_of_list_byte_of_string, parse_render.
  apply to_ClusterMetadata_of_ClusterMetadata.
Qed.

(** ** The metadata that [Generate] stages *)

(** What [Generate] appended, from the list before and the list after. *)
Ltac appended H :=
  rewrite <- ?app_assoc in H;
  first [ apply app_inv_head in H
        | rewrite <- (app_nil_r (FileList _)) in H at 1; apply app_inv_head in H ];
  cbn in H; subst.

(** C6. For an install config that selects AWS with region "us-test-1",
    cluster name "demo" and some cluster ID, and a decoder that reads back
    what the environment's encoder writes for the record, every
    metadata.json that [Generate] stages decodes to a record with
    clusterName "demo" and an AWS section with region "us-test-1" and an
    identifier map that holds the cluster ID under tectonicClusterID.
    The record is staged in every run that gets past lines 59-73,
    whatever happens later: it is handed to the encoder, and what the
    encoder makes of it is the last file of the list.  So it is when the
    apply step fails. *)
Theorem Generate_aws_metadata {W} (E : Env W)
    (decode : bytes -> option types.ClusterMetadata.t) parents c w clusterID :
  let config := installconfig.Config (installConfig parents) in
  let record := aws_metadata "demo" "us-test-1" clusterID in
  types.Platform.AWS (types.InstallConfig.Platform config)
    = Some {| types.AWSPlatform.Region := "us-test-1" |} ->
  types.ObjectMeta.Name (types.InstallConfig.ObjectMeta config) = "demo" ->
  types.InstallConfig.ClusterID config = clusterID ->
  (forall data, json_Marshal E record = inl data -> decode data = Some record) ->
  let r := run E parents c w in
  forall new, staged_files c (cluster_of r) new ->
    (forall f, In f new -> Filename f = MetadataFilename ->
       exists md, decode (Data f) = Some md
         /\ describes_aws md "demo" "us-test-1" clusterID)
    /\ (working_dir_staged (trace_of r) ->
          In (EvMarshal record (json_Marshal E record)) (trace_of r)
          /\ forall data, json_Marshal E record = inl data ->
               last new = Some {| Filename := MetadataFilename; Data := data |})
    /\ (forall dir stateFile err,
          In (EvApply dir (stateFile, Some err)) (trace_of r) ->
          working_dir_staged (trace_of r)
          /\ In (EvMarshal record (json_Marshal E record)) (trace_of r)
          /\ forall data, json_Marshal E record = inl data ->
               In {| Filename := MetadataFilename; Data := data |} new).
Proof.
  cbv zeta. unfold staged_files, aws_metadata, working_dir_staged.
  intros Haws Hname Hid Hdecode.
  unfold_Generate. unfold set_AWS, new_metadata.
  rewrite Haws, Hname, Hid. cbn.
  repeat (exec_step; cbn).
  all: intros new Hnew; appended Hnew.
  all: split; [intros file Hin Hname'|split;
         [intros (? & ? & ? & ? & ? & ? & ? & ? & Hstaged)
         |intros dir stateFile err Hin]].
  all: try discriminate Hstaged.
  all: cbn in *; entries; try subst file; try discriminate Hname'.
  all: try (eexists; split; [cbn [Data]; apply Hdecode; reflexivity|];
            split; [reflexivity|]; eexists; split; [reflexivity|];
            split; [reflexivity|]; apply lookup_singleton_eq).
  all: try (split; [do 8 eexists; reflexivity|]).
  all: split; [cbn; tauto|].
  all: intros data Hdata; try discriminate Hdata.
  all: injection Hdata as <-; cbn; first [reflexivity | tauto].
Qed.

Lemma Generate_aws_metadata_witness :
  let r := run (scripted.env scripted.apply_fails) scripted.demo_aws
             scripted.fresh tt in
  let record := aws_metadata "demo" "us-test-1" "c0ffee-0042" in
  exists data,
    json.Marshal record = inl data
    /\ json.Unmarshal data = Some record
    /\ In (EvApply scripted.tmp
             (scripted.tmp +:+ "/terraform.tfstate",
              Some (ForeignError "exit status 1"))) (trace_of r)
    /\ In {| Filename := MetadataFilename; Data := data |} (Files (cluster_of r))
    /\ last (Files (cluster_of r))
       = Some {| Filename := MetadataFilename; Data := data |}
    /\ forall f, In f (Files (cluster_of r)) -> Filename f = MetadataFilename ->
         exists md, json.Unmarshal (Data f) = Some md
           /\ describes_aws md "demo" "us-test-1" "c0ffee-0042".
Proof.
  cbv zeta.
  assert (Hdecode : forall data,
            json.Marshal (aws_metadata "demo" "us-test-1" "c0ffee-0042")
            = inl data ->
            json.Unmarshal data
            = Some (aws_metadata "demo" "us-test-1" "c0ffee-0042")).
  { intros data Hdata. injection Hdata as <-. vm_compute. reflexivity. }
  destruct (Generate_aws_metadata (scripted.env scripted.apply_fails)
              json.Unmarshal scripted.demo_aws scripted.fresh tt
              "c0ffee-0042" eq_refl eq_refl eq_refl Hdecode _ eq_refl)
    as (Hdecoded & Hstaged & Hfailed).
  match goal with
  | |- exists data, _ /\ _ /\ ?P /\ _ =>
      assert (Hin : P) by (vm_compute; tauto)
  end.
  destruct (Hfailed _ _ _ Hin) as (Hdir & _ & Hthere).
  destruct (Hstaged Hdir) as (_ & Hlast).
  eexists. split; [reflexivity|].
  split; [apply Hdecode; reflexivity|].
  split; [exact Hin|].
  split; [exact (Hthere _ eq_refl)|].
  split; [exact (Hlast _ eq_refl)|].
  exact Hdecoded.
Defined.

(** Where in a concrete trace a given entry sits. *)
Lemma cons_eq_app_cons {A} (x e : A) (l before after : list A) :
  x :: l = before ++ e :: after ->
  (before = [] /\ x = e /\ l = after)
  \/ (exists before', before = x :: before' /\ l = before' ++ e :: after).
Proof.
  destruct before as [|y before]; cbn; intros H; injection H as -> ->; eauto.
Qed.

Lemma nil_eq_app_cons {A} (e : A) (before after : list A) :
  [] = before ++ e :: after -> False.
Proof. destruct before; discriminate. Qed.

Ltac locate H :=
  repeat match type of H with
    | [] = _ ++ _ :: _ => apply nil_eq_app_cons in H; contradiction
    | _ :: _ = _ ++ _ :: _ =>
        apply cons_eq_app_cons in H;
        destruct H as [(-> & H & <-)|(? & -> & H)];
        [first [discriminate H | injection H as ?; subst]|]
    end.

(** C7, as the spec has it, fails: the platform-specific package is
    unpacked into the working directory (line 71) before the switch over
    the platform sections is evaluated (line 96).  In this run for AWS,
    nothing but the creation of the directory and the writing of the
    variables file precedes the unpacking of the package "aws". *)
Lemma Generate_classification_order_counterexample :
  let E := scripted.env scripted.sunny in
  ~ classified_before_unpacked E scripted.demo_aws
      (trace_of (run E scripted.demo_aws scripted.fresh tt)).
Proof.
  cbv zeta. intros H.
  destruct (H [ EvTempDir "/tmp" "openshift-install-" (inl scripted.tmp);
                EvWriteFile (scripted.tmp +:+ "/terraform.tfvars")
                  (list_byte_of_string "{}") 384 None ]
              scripted.tmp None
              (drop 3 (trace_of (run (scripted.env scripted.sunny)
                                   scripted.demo_aws scripted.fresh tt)))
              eq_refl) as [selected Hin].
  cbn in Hin. entries.
Qed.

(** C7, amended.  In every execution of [Generate] that evaluates the
    switch over the platform sections, the platform-specific package - the
    one named by [Platform.Name] - has been unpacked into the temporary
    directory before, with success; what is unpacked after the switch is
    config.tf only. *)
Theorem Generate_classification_order {W} (E : Env W) parents c w
    before selected after :
  trace_of (run E parents c w) = before ++ EvSwitch selected :: after ->
  let platform :=
    Platform_Name E (types.InstallConfig.Platform
                       (installconfig.Config (installConfig parents))) in
  exists tmpDir,
    last before = Some (EvUnpack tmpDir platform None)
    /\ forall base uri r,
         In (EvUnpack base uri r) after ->
         base = filepath_Join E tmpDir "config.tf" /\ uri = "config.tf".
Proof.
  cbv zeta.
  exec; intros H; locate H.
  all: eexists; split; [reflexivity|].
  all: intros base uri r Hin; cbn in Hin; entries; split; reflexivity.
Qed.

Lemma Generate_classification_order_witness :
  let E := scripted.env scripted.sunny in
  let tr := trace_of (run E scripted.demo_aws scripted.fresh tt) in
  tr = take 3 tr ++ EvSwitch (Some AWS) :: drop 4 tr
  /\ last (take 3 tr) = Some (EvUnpack scripted.tmp "aws" None).
Proof.
  cbv zeta.
  match goal with
  | |- ?P /\ _ => assert (Hsplit : P) by (vm_compute; reflexivity)
  end.
  split; [exact Hsplit|].
  destruct (Generate_classification_order _ _ _ _ _ _ _ Hsplit)
    as (tmpDir & Hlast & _).
  rewrite Hlast. vm_compute in Hlast. injection Hlast as <-. reflexivity.
Defined.

(** C9. [Generate] indexes the first file of the terraform-variables
    asset without looking at the length of the list: once the temporary
    directory exists, an empty list makes it panic with an index out of
    range, and nothing else makes it panic.  So the call is free of an
    out-of-range access in every environment exactly when that asset holds
    at least one file. *)
Theorem Generate_indexes_first_file parents :
  let files := TerraformVariables_Files (terraformVariables parents) in
  (forall W (E : Env W) c w p,
     outcome_of (run E parents c w) = Panicking p <->
     files = [] /\ p = IndexOutOfRange 0 0
     /\ exists dir prefix tmpDir,
          In (EvTempDir dir prefix (inl tmpDir)) (trace_of (run E parents c w)))
  /\ ((forall W (E : Env W) c w p,
         outcome_of (run E parents c w) <> Panicking p) <->
      files <> []).
Proof.
  cbv zeta.
  assert (Hpanic : forall W (E : Env W) c w p,
     outcome_of (run E parents c w) = Panicking p <->
     TerraformVariables_Files (terraformVariables parents) = []
     /\ p = IndexOutOfRange 0 0
     /\ exists dir prefix tmpDir,
          In (EvTempDir dir prefix (inl tmpDir)) (trace_of (run E parents c w))).
  { intros W E c w p. exec.
    all: split;
      [ intros H; try discriminate H;
        injection H as <-; repeat split; do 3 eexists; left; reflexivity
      | intros (Hnil & -> & dir & prefix & tmpDir & Hin);
        try discriminate Hnil; try reflexivity; entries ]. }
  split; [exact Hpanic|].
  split.
  - intros Hsafe Hnil.
    apply (Hsafe unit (scripted.env scripted.sunny) scripted.fresh tt
             (IndexOutOfRange 0 0)).
    apply Hpanic. split; [exact Hnil|]. split; [reflexivity|].
    exists "/tmp", "openshift-install-", scripted.tmp.
    unfold_Generate. rewrite Hnil. cbn. left. reflexivity.
  - intros Hfiles W E c w p Hp. apply Hpanic in Hp. tauto.
Qed.

(** C10. When [Generate] fails with the "no known platform" error, the
    deferred closure has handed the encoder a record that carries the
    cluster name and no platform section; with the encoder's answer for
    that record, the last file of the list is metadata.json with that
    content, so the list is not empty. *)
Theorem Generate_no_platform_metadata {W} (E : Env W) parents c w data :
  let name :=
    types.ObjectMeta.Name
      (types.InstallConfig.ObjectMeta
         (installconfig.Config (installConfig parents))) in
  let r := run E parents c w in
  outcome_of r = Return (Some (fmt.Errorf "no known platform")) ->
  json_Marshal E (bare_metadata name) = inl data ->
  In (EvMarshal (bare_metadata name) (inl data)) (trace_of r)
  /\ staged_files c (cluster_of r)
       [ {| Filename := MetadataFilename; Data := data |} ]
  /\ last (Files (cluster_of r))
     = Some {| Filename := MetadataFilename; Data := data |}
  /\ Files (cluster_of r) <> [].
Proof.
  cbv zeta. unfold staged_files, bare_metadata.
  unfold_Generate. unfold new_metadata. cbn.
  repeat (exec_step; cbn).
  all: intros H; try discriminate H.
  all: intros Hdata; try discriminate Hdata; injection Hdata as <-.
  all: split; [cbn; tauto|].
  all: split; [reflexivity|].
  all: split; [apply last_snoc|].
  all: intros Hnil; apply app_eq_nil in Hnil; destruct Hnil; discriminate.
Qed.

Lemma Generate_no_platform_metadata_witness :
  let r := run (scripted.env scripted.sunny) scripted.demo_unset
             scripted.fresh tt in
  let data := list_byte_of_string
                (json.render (json.Object [("clusterName", json.Str "demo")])) in
  outcome_of r = Return (Some (fmt.Errorf "no known platform"))
  /\ json.Marshal (bare_metadata "demo") = inl data
  /\ Files (cluster_of r) = [ {| Filename := MetadataFilename; Data := data |} ].
Proof.
  cbv zeta.
  assert (Hout : outcome_of (run (scripted.env scripted.sunny) scripted.demo_unset
                               scripted.fresh tt)
                 = Return (Some (fmt.Errorf "no known platform")))
    by (vm_compute; reflexivity).
  split; [exact Hout|]. split; [reflexivity|].
  exact (proj1 (proj2 (Generate_no_platform_metadata
                         (scripted.env scripted.sunny) scripted.demo_unset
                         scripted.fresh tt _ Hout eq_refl))).
Defined.

(** * Further properties of [Generate] and [Load] *)


(** X2. The metadata record.  Whatever [Generate] hands to the encoder
    carries the cluster name of the install config and at most one
    platform section: the AWS section when the AWS section of the config
    is set, else the OpenStack section when that one is set, else the
    Libvirt section when that one is set - also when the config sets
    several.  The AWS and OpenStack sections carry the region and the
    identifier map with the cluster ID under tectonicClusterID alone; the
    Libvirt section carries the URI. *)
Theorem Generate_metadata_record {W} (E : Env W) parents c w md res :
  In (EvMarshal md res) (trace_of (run E parents c w)) ->
  let config := installconfig.Config (installConfig parents) in
  let platform := types.InstallConfig.Platform config in
  let identifier : gmap string string :=
    {[ "tectonicClusterID" := types.InstallConfig.ClusterID config ]} in
  let sections := types.ClusterMetadata.ClusterPlatformMetadata md in
  types.ClusterMetadata.ClusterName md
  = types.ObjectMeta.Name (types.InstallConfig.ObjectMeta config)
  /\ types.ClusterPlatformMetadata.AWS sections
     = (fun aws =>
          {| types.ClusterAWSPlatformMetadata.Region := types.AWSPlatform.Region aws;
             types.ClusterAWSPlatformMetadata.Identifier := identifier |})
         <$> types.Platform.AWS platform
  /\ types.ClusterPlatformMetadata.OpenStack sections
     = match types.Platform.AWS platform with
       | Some _ => None
       | None =>
           (fun openstack =>
              {| types.ClusterOpenStackPlatformMetadata.Region :=
                   types.OpenStackPlatform.Region openstack;
                 types.ClusterOpenStackPlatformMetadata.Identifier := identifier |})
             <$> types.Platform.OpenStack platform
       end
  /\ types.ClusterPlatformMetadata.Libvirt sections
     = match types.Platform.AWS platform, types.Platform.OpenStack platform with
       | None, None =>
           (fun libvirt =>
              {| types.ClusterLibvirtPlatformMetadata.URI :=
                   types.LibvirtPlatform.URI libvirt |})
             <$> types.Platform.Libvirt platform
       | _, _ => None
       end.
Proof.
  cbv zeta. exec; intros H; entries.
  all: repeat split; reflexivity.
Qed.

Lemma Generate_metadata_record_witness :
  let both :=
    {| types.Platform.AWS := None;
       types.Platform.OpenStack :=
         Some {| types.OpenStackPlatform.Region := "RegionOne" |};
       types.Platform.Libvirt :=
         Some {| types.LibvirtPlatform.URI := "qemu:///system" |} |} in
  let parents :=
    scripted.parents_of (scripted.config "demo" "c0ffee-0042" both) scripted.tfvars in
  let r := run (scripted.env scripted.sunny) parents scripted.fresh tt in
  exists md res,
    In (EvMarshal md res) (trace_of r)
    /\ types.ClusterPlatformMetadata.OpenStack
         (types.ClusterMetadata.ClusterPlatformMetadata md)
       = Some {| types.ClusterOpenStackPlatformMetadata.Region := "RegionOne";
                 types.ClusterOpenStackPlatformMetadata.Identifier :=
                   {[ "tectonicClusterID" := "c0ffee-0042" ]} |}
    /\ types.ClusterPlatformMetadata.Libvirt
         (types.ClusterMetadata.ClusterPlatformMetadata md) = None.
Proof.
  cbv zeta.
  eexists. eexists.
  match goal with
  | |- ?P /\ _ =>
      assert (Hin : P) by (vm_compute; do 9 right; left; reflexivity)
  end.
  split; [exact Hin|].
  destruct (Generate_metadata_record _ _ _ _ _ _ Hin) as (_ & _ & Hos & Hlv).
  split; [exact Hos|exact Hlv].
Defined.

(** What a call adds to the file list, and where its bytes come from. *)
Lemma appended_by_Generate {W} (E : Env W) parents c w :
  let r := run E parents c w in
  exists new,
    staged_files c (cluster_of r) new
    /\ sublist (List.map Filename new) [stateFileName; MetadataFilename]
    /\ forall f, In f new ->
         (Filename f = stateFileName
          /\ exists path, In (EvReadFile path (inl (Data f))) (trace_of r))
         \/ (Filename f = MetadataFilename
             /\ exists md, In (EvMarshal md (inl (Data f))) (trace_of r)).
Proof.
  cbv zeta. unfold staged_files.
  exec.
  all: match goal with
       | |- exists new, (_ ++ [?a]) ++ [?b] = _ /\ _ => exists [a; b]
       | |- exists new, _ ++ [?a] = _ /\ _ => exists [a]
       | |- exists new, _ = _ /\ _ => exists []
       end.
  all: split; [rewrite <- ?app_assoc, ?app_nil_r; reflexivity|].
  all: split; [cbn; repeat first [apply sublist_nil | apply sublist_skip
                                 | apply sublist_cons | apply sublist_cons_r]|].
  all: intros file Hin; cbn in Hin.
  all: repeat match goal with
         | H : False |- _ => contradiction
         | H : _ \/ _ |- _ => destruct H as [H|H]
         | H : @eq File _ ?f |- _ => is_var f; subst f
         end.
  all: cbn; first [ left; split; [reflexivity|]; eexists; tauto
                  | right; split; [reflexivity|]; eexists; tauto ].
Qed.

(** X3. The file list only grows, by at most two files, in a fixed
    order.  [Generate] keeps the files the asset held, and what it
    appends is terraform.tfstate, then metadata.json, or one of them, or
    nothing; the state file holds the bytes [ioutil.ReadFile] answered and
    the metadata file the bytes [json.Marshal] answered. *)
Theorem Generate_appends {W} (E : Env W) parents c w :
  let r := run E parents c w in
  exists new,
    staged_files c (cluster_of r) new
    /\ sublist (List.map Filename new) [stateFileName; MetadataFilename]
    /\ forall f, In f new ->
         (Filename f = stateFileName
          /\ exists path, In (EvReadFile path (inl (Data f))) (trace_of r))
         \/ (Filename f = MetadataFilename
             /\ exists md, In (EvMarshal md (inl (Data f))) (trace_of r)).
Proof.
  cbv zeta.
  destruct (appended_by_Generate E parents c w) as (new & Hnew & Hnames & Hfrom).
  exists new. split; [exact Hnew|]. split; [exact Hnames|exact Hfrom].
Qed.

(** X4. How terraform gets applied.  Whenever the apply step is invoked,
    the run up to it is fixed: the temporary directory was created under
    [os.TempDir()] with the prefix openshift-install-; the first file of
    the terraform-variables asset was written into it under its own name,
    with mode 0600; the platform data and then config.tf were unpacked
    into it; terraform was initialized in it; and each of these
    succeeded.  Apply runs in that same directory. *)
Theorem Generate_apply_protocol {W} (E : Env W) parents c w dir res :
  In (EvApply dir res) (trace_of (run E parents c w)) ->
  exists first others selected,
    TerraformVariables_Files (terraformVariables parents) = first :: others
    /\ take 8 (trace_of (run E parents c w))
       = [ EvTempDir (os_TempDir E w) "openshift-install-" (inl dir);
           EvWriteFile (filepath_Join E dir (Filename first)) (Data first)
             384 None;
           EvUnpack dir
             (Platform_Name E
                (types.InstallConfig.Platform
                   (installconfig.Config (installConfig parents)))) None;
           EvSwitch (Some selected);
           EvUnpack (filepath_Join E dir "config.tf") "config.tf" None;
           EvLog InfoLevel "Using Terraform to create cluster...";
           EvInit dir None;
           EvApply dir res ].
Proof.
  exec; intros H; entries.
  all: do 3 eexists; split; reflexivity.
Qed.

Lemma Generate_apply_protocol_witness :
  let r := run (scripted.env scripted.apply_fails) scripted.demo_aws
             scripted.fresh tt in
  let res := (scripted.tmp +:+ "/terraform.tfstate",
              Some (ForeignError "exit status 1")) in
  In (EvApply scripted.tmp res) (trace_of r)
  /\ exists first others selected,
       TerraformVariables_Files (terraformVariables scripted.demo_aws)
       = first :: others
       /\ take 8 (trace_of r)
          = [ EvTempDir "/tmp" "openshift-install-" (inl scripted.tmp);
              EvWriteFile (scripted.tmp +:+ "/" +:+ Filename first) (Data first)
                384 None;
              EvUnpack scripted.tmp "aws" None;
              EvSwitch (Some selected);
              EvUnpack (scripted.tmp +:+ "/" +:+ "config.tf") "config.tf" None;
              EvLog InfoLevel "Using Terraform to create cluster...";
              EvInit scripted.tmp None;
              EvApply scripted.tmp res ].
Proof.
  cbv zeta.
  match goal with
  | |- ?P /\ _ => assert (Hin : P) by (vm_compute; tauto)
  end.
  split; [exact Hin|].
  exact (Generate_apply_protocol _ _ _ _ _ _ Hin).
Defined.

(** X5. What [Generate] reads of its parents.  Two parent views with the
    same install config and the same first terraform-variables file give
    the same run: the files after the first and the admin kubeconfig are
    not looked at. *)
Theorem Generate_reads_of_parents {W} (E : Env W) parents parents' c w :
  installconfig.Config (installConfig parents)
  = installconfig.Config (installConfig parents') ->
  head (TerraformVariables_Files (terraformVariables parents))
  = head (TerraformVariables_Files (terraformVariables parents')) ->
  run E parents c w = run E parents' c w.
Proof.
  intros Hconfig Hhead.
  unfold run, Generate, in_tmpDir, bind, defer.
  rewrite Hconfig.
  unfold TerraformVariables_Files in *.
  destruct (tfvars_FileList (terraformVariables parents)) as [|f l],
    (tfvars_FileList (terraformVariables parents')) as [|f' l'];
    try discriminate Hhead; [reflexivity|].
  injection Hhead as <-. reflexivity.
Qed.

Lemma Generate_reads_of_parents_witness :
  let more :=
    {| tfvars_FileList :=
         tfvars_FileList scripted.tfvars
         ++ [ {| Filename := "extra.tfvars"; Data := list_byte_of_string "x" |} ] |} in
  let parents' :=
    {| installConfig := installConfig scripted.demo_aws;
       terraformVariables := more;
       adminKubeconfig :=
         {| kubeconfig.Files :=
              [ {| Filename := "auth/kubeconfig"; Data := [] |} ] |} |} in
  parents' <> scripted.demo_aws
  /\ run (scripted.env scripted.sunny) scripted.demo_aws scripted.fresh tt
     = run (scripted.env scripted.sunny) parents' scripted.fresh tt.
Proof.
  cbv zeta. split; [discriminate|].
  apply Generate_reads_of_parents; reflexivity.
Defined.

(** X6. Nothing is retried.  In every run [ioutil.TempDir] is called
    once, and the writing of the variables file, terraform's init,
    terraform's apply, the read-back of the state file, the serialization
    of the metadata and the removal of the directory at most once each;
    [data.Unpack] is called at most twice. *)
Theorem Generate_no_retry {W} (E : Env W) parents c w :
  let tr := trace_of (run E parents c w) in
  occurrences is_TempDir tr = 1
  /\ occurrences is_WriteFile tr <= 1
  /\ occurrences is_Unpack tr <= 2
  /\ occurrences is_Init tr <= 1
  /\ occurrences is_Apply tr <= 1
  /\ occurrences is_ReadFile tr <= 1
  /\ occurrences is_Marshal tr <= 1
  /\ occurrences is_RemoveAll tr <= 1.
Proof.
  cbv zeta. unfold occurrences.
  exec; cbn; repeat split; lia.
Qed.

(** X7. What a successful call leaves.  When [Generate] returns nil,
    terraform's init and apply were both invoked and both succeeded, and
    exactly two files were appended: terraform.tfstate, with the bytes
    read from the path that apply named, and after it metadata.json, with
    the bytes the encoder made of the metadata record. *)
Theorem Generate_success {W} (E : Env W) parents c w :
  outcome_of (run E parents c w) = Return None ->
  let r := run E parents c w in
  exists dir stateFile state md metadata,
    In (EvInit dir None) (trace_of r)
    /\ In (EvApply dir (stateFile, None)) (trace_of r)
    /\ In (EvReadFile stateFile (inl state)) (trace_of r)
    /\ In (EvMarshal md (inl metadata)) (trace_of r)
    /\ staged_files c (cluster_of r)
         [ {| Filename := stateFileName; Data := state |};
           {| Filename := MetadataFilename; Data := metadata |} ].
Proof.
  cbv zeta. unfold staged_files.
  exec; intros H; try discriminate H.
  all: do 5 eexists.
  all: repeat (split; [cbn; tauto|]).
  all: rewrite <- app_assoc; reflexivity.
Qed.

Lemma Generate_success_witness :
  let r := run (scripted.env scripted.sunny) scripted.demo_aws scripted.fresh tt in
  outcome_of r = Return None
  /\ exists state metadata,
       Files (cluster_of r)
       = [ {| Filename := stateFileName; Data := state |};
           {| Filename := MetadataFilename; Data := metadata |} ].
Proof.
  cbv zeta.
  match goal with
  | |- ?P /\ _ => assert (Hnil : P) by (vm_compute; reflexivity)
  end.
  split; [exact Hnil|].
  destruct (Generate_success _ _ _ _ Hnil)
    as (dir & stateFile & state & md & metadata & _ & _ & _ & _ & Hstaged).
  exists state, metadata. exact Hstaged.
Defined.

(** A state file that was read back is in the list. *)
Lemma Generate_stages_state {W} (E : Env W) parents c w path state :
  In (EvReadFile path (inl state)) (trace_of (run E parents c w)) ->
  In {| Filename := stateFileName; Data := state |}
     (Files (cluster_of (run E parents c w))).
Proof.
  exec; intros H; entries.
  all: rewrite ?in_app_iff; cbn; tauto.
Qed.

(** X8. [Load] after [Generate].  Take an asset that holds no
    terraform.tfstate, call [Generate], and probe with a fetcher that
    serves the files the asset then holds: [Load] reports found = true,
    with its error, exactly when the read-back of the state file
    succeeded in that call.  If apply ran and the state file could not be
    read, [Load] reports found = false and no error. *)
Theorem Load_after_Generate {W} (E : Env W) parents c w
    `{FileFetcher F} (f : F) :
  (forall file, In file (Files c) -> Filename file <> stateFileName) ->
  serves f (Files (cluster_of (run E parents c w))) ->
  let r := run E parents c w in
  let c' := cluster_of r in
  (fst (fst (Load c' f)) = true
   <-> exists path state, In (EvReadFile path (inl state)) (trace_of r))
  /\ (fst (fst (Load c' f)) = false -> snd (fst (Load c' f)) = None)
  /\ (fst (fst (Load c' f)) = true -> is_Some (snd (fst (Load c' f)))).
Proof.
  intros Hfresh Hserves. cbv zeta.
  rewrite Load_fetcher.
  specialize (Hserves stateFileName). unfold stateFileName in *.
  assert (Hstate :
    (exists file, In file (Files (cluster_of (run E parents c w)))
                  /\ Filename file = "terraform.tfstate")
    <-> exists path state,
          In (EvReadFile path (inl state)) (trace_of (run E parents c w))).
  { destruct (appended_by_Generate E parents c w) as (new & Hnew & _ & Hfrom).
    unfold staged_files in Hnew. unfold Files. rewrite Hnew.
    split.
    - intros (file & Hin & Hname). apply in_app_or in Hin as [Hin|Hin].
      + exfalso. exact (Hfresh file Hin Hname).
      + destruct (Hfrom file Hin) as [(_ & path & Hread)|(Hmeta & _)].
        * exists path, (Data file). exact Hread.
        * rewrite Hname in Hmeta. discriminate Hmeta.
    - intros (path & state & Hin).
      apply Generate_stages_state in Hin. unfold Files in Hin.
      rewrite Hnew in Hin. eexists; split; [exact Hin|reflexivity]. }
  destruct (FetchByName f "terraform.tfstate") as [file|] eqn:Hfetch; cbn.
  - split; [split|split].
    + intros _. apply Hstate, Hserves. eexists; reflexivity.
    + reflexivity.
    + discriminate.
    + intros _. eexists; reflexivity.
  - split; [split|split].
    + discriminate.
    + intros Hread. apply Hstate, Hserves in Hread.
      destruct Hread as [x Hx]. discriminate Hx.
    + reflexivity.
    + discriminate.
Qed.

(** The list-backed fetcher serves its list. *)
Lemma files_fetcher_serves (files : list File) : serves files files.
Proof.
  intros name. unfold FetchByName, files_fetcher. split.
  - intros [file Hfind]. apply find_some in Hfind as [Hin Heq].
    apply String.eqb_eq in Heq. eauto.
  - intros (file & Hin & Hname).
    destruct (find _ files) as [found|] eqn:Hfind; [eexists; reflexivity|].
    apply (find_none _ _ Hfind) in Hin. cbn in Hin.
    apply String.eqb_neq in Hin. contradiction.
Qed.

Lemma Load_after_Generate_witness :
  let r := run (scripted.env scripted.apply_and_read_fail) scripted.demo_aws
             scripted.fresh tt in
  (forall file, In file (Files scripted.fresh) -> Filename file <> stateFileName)
  /\ serves (Files (cluster_of r)) (Files (cluster_of r))
  /\ In (EvApply scripted.tmp
           (scripted.tmp +:+ "/terraform.tfstate",
            Some (ForeignError "exit status 1"))) (trace_of r)
  /\ fst (fst (Load (cluster_of r) (Files (cluster_of r)))) = false
  /\ snd (fst (Load (cluster_of r) (Files (cluster_of r)))) = None.
Proof.
  cbv zeta.
  assert (Hfresh : forall file, In file (Files scripted.fresh) ->
                                Filename file <> stateFileName)
    by (intros file []).
  pose proof (files_fetcher_serves
                (Files (cluster_of (run (scripted.env scripted.apply_and_read_fail)
                                      scripted.demo_aws scripted.fresh tt))))
    as Hserves.
  destruct (Load_after_Generate _ _ _ _ _ Hfresh Hserves) as (_ & Hfalse & _).
  split; [exact Hfresh|]. split; [exact Hserves|].
  split; [vm_compute; tauto|].
  assert (Hfound : fst (fst (Load (cluster_of (run (scripted.env scripted.apply_and_read_fail)
                                      scripted.demo_aws scripted.fresh tt))
                               (Files (cluster_of (run (scripted.env scripted.apply_and_read_fail)
                                      scripted.demo_aws scripted.fresh tt))))) = false)
    by (vm_compute; reflexivity).
  split; [exact Hfound|exact (Hfalse Hfound)].
Defined.



(** * The bootstrap script *)

Import bootkube bootkube_spec.

Section Bootkube.

Context {W : Type} (H : Host W) (T : Template).

(** ** Rules for pieces of script *)

Lemma triple_pure {A} (P : Shell W -> Prop) (a : A)
    (Q : Result A -> Shell W -> Prop) :
  (forall s, P s -> Q (Done a) s) -> triple P (pure a) Q.
Proof. intros HQ s Hs. apply HQ, Hs. Qed.

Lemma triple_and_then {A B} (P : Shell W -> Prop) (m : Sh W A) (k : A -> Sh W B)
    (M : Result A -> Shell W -> Prop) (Q : Result B -> Shell W -> Prop) :
  triple P m M ->
  (forall a, triple (M (Done a)) (k a) Q) ->
  (forall s, M Aborted s -> Q Aborted s) ->
  (forall s, M OutOfRounds s -> Q OutOfRounds s) ->
  triple P (and_then m k) Q.
Proof.
  intros Hm Hk Ha Ho s Hs. specialize (Hm s Hs).
  unfold and_then. destruct (m s) as [[a| |] s']; cbn in *.
  - apply Hk, Hm.
  - apply Ha, Hm.
  - apply Ho, Hm.
Qed.

Lemma triple_status_of (P : Shell W -> Prop) (argv : command)
    (Q : Result (nat * string) -> Shell W -> Prop) :
  (forall s status stdout w,
     P s -> Q (Done (status, stdout)) (after s argv status stdout w)) ->
  triple P (status_of H argv) Q.
Proof.
  intros HQ s Hs. unfold status_of.
  destruct (execute H argv (host_world s)) as [[status stdout] w]. cbn.
  apply (HQ s status stdout w Hs).
Qed.

Lemma triple_errexit {A} (P : Shell W -> Prop) (Q : Result A -> Shell W -> Prop) :
  (forall s, P s -> err_trap s = None -> Q Aborted s) ->
  (forall s handler status stdout w,
     P s -> err_trap s = Some handler ->
     Q Aborted (after s handler status stdout w)) ->
  triple P (errexit H) Q.
Proof.
  intros Hnone Hsome s Hs. unfold errexit.
  specialize (Hnone s Hs). specialize (Hsome s). unfold after in Hsome.
  destruct (err_trap s) as [handler|].
  - destruct (execute H handler (host_world s)) as [[status stdout] w]. cbn.
    apply (Hsome handler status stdout w Hs eq_refl).
  - apply Hnone. reflexivity.
Qed.

(** *** Invariants *)

Lemma keeps_and_then {A B} (I R : Shell W -> Prop) (m : Sh W A) (k : A -> Sh W B) :
  keeps I R m -> (forall a, keeps I R (k a)) -> keeps I R (and_then m k).
Proof.
  intros Hm Hk.
  apply (triple_and_then I m k (fun r s => I s /\ (r = Aborted -> R s))).
  - exact Hm.
  - intros a s [Hs _]. exact (Hk a s Hs).
  - intros s [Hs HR]. split; [exact Hs|]. intros _. apply HR. reflexivity.
  - intros s [Hs _]. split; [exact Hs|]. discriminate.
Qed.

Lemma keeps_pure {A} (I R : Shell W -> Prop) (a : A) : keeps I R (pure a).
Proof. apply triple_pure. intros s Hs. split; [exact Hs|discriminate]. Qed.

Lemma keeps_status_of (I R : Shell W -> Prop) ok argv :
  closed I R ok -> ok argv -> keeps I R (status_of H argv).
Proof.
  intros (Hc & _) Hok. apply triple_status_of.
  intros s status stdout w Hs. split; [auto|discriminate].
Qed.

Lemma keeps_errexit {A} (I R : Shell W -> Prop) ok :
  closed I R ok -> keeps I R (@errexit W H A).
Proof.
  intros (Hc & Hh & Hnone & Hsome). apply triple_errexit.
  - intros s Hs Htrap. split; [exact Hs|]. intros _. exact (Hnone s Hs Htrap).
  - intros s handler status stdout w Hs Htrap. split.
    + apply Hc; [exact Hs|]. exact (Hh s handler Hs Htrap).
    + intros _. exact (Hsome s handler status stdout w Hs Htrap).
Qed.

Lemma keeps_command_line (I R : Shell W -> Prop) ok argv :
  closed I R ok -> ok argv -> keeps I R (command_line H argv).
Proof.
  intros Hc Hok. unfold command_line.
  apply keeps_and_then; [exact (keeps_status_of I R ok argv Hc Hok)|].
  intros [[|status] stdout]; [apply keeps_pure|exact (keeps_errexit I R ok Hc)].
Qed.

Lemma keeps_command_line_in (I R : Shell W -> Prop) ok words :
  closed I R ok -> (forall w, ok (words w)) -> keeps I R (command_line_in H words).
Proof.
  intros Hc Hok s Hs. unfold command_line_in.
  exact (keeps_command_line I R ok _ Hc (Hok (host_world s)) s Hs).
Qed.

Lemma keeps_echo (I R : Shell W -> Prop) ok line :
  closed I R ok -> ok ["echo"; line] -> keeps I R (echo H line).
Proof.
  intros Hc Hok. unfold echo.
  apply keeps_and_then; [exact (keeps_command_line I R ok _ Hc Hok)|].
  intros _. apply keeps_pure.
Qed.

Lemma keeps_unless_directory (I R : Shell W -> Prop) ok dir body :
  closed I R ok -> ok (no_directory dir) -> keeps I R body ->
  keeps I R (unless_directory H dir body).
Proof.
  intros Hc Hok Hbody. unfold unless_directory.
  apply keeps_and_then; [exact (keeps_status_of I R ok _ Hc Hok)|].
  intros [[|status] stdout]; [exact Hbody|apply keeps_pure].
Qed.

Lemma keeps_until_healthy (I R : Shell W -> Prop) ok rounds :
  closed I R ok ->
  ok (endpoint_health T) ->
  ok ["echo"; "etcdctl failed. Retrying in 5 seconds..."] ->
  ok ["sleep"; "5"] ->
  keeps I R (until_healthy H T rounds).
Proof.
  intros Hc Hhealth Hecho Hsleep.
  induction rounds as [|rounds IH]; cbn [until_healthy].
  - intros s Hs. split; [exact Hs|discriminate].
  - apply keeps_and_then; [exact (keeps_status_of I R ok _ Hc Hhealth)|].
    intros [[|status] stdout]; [apply keeps_pure|].
    apply keeps_and_then; [exact (keeps_echo I R ok _ Hc Hecho)|]. intros _.
    apply keeps_and_then; [exact (keeps_command_line I R ok _ Hc Hsleep)|].
    intros _. exact IH.
Qed.

Lemma keeps_trap_ERR (I R : Shell W -> Prop) handler :
  (forall s, I s ->
     I {| host_world := host_world s; history := history s;
          err_trap := Some handler |}) ->
  keeps I R (trap_ERR handler).
Proof. intros HI s Hs. split; [apply HI, Hs|discriminate]. Qed.

(** Walking over a piece of script with an invariant: what is left are
    its commands, to be shown of the kind that keeps the invariant. *)
Ltac walk_with Hc special :=
  repeat first
    [ special
    | apply keeps_pure
    | match goal with
      | |- keeps _ _ (and_then _ _) => apply keeps_and_then; [|intros]
      | |- keeps _ _ (command_line _ _) => eapply keeps_command_line; [exact Hc|]
      | |- keeps _ _ (command_line_in _ _) =>
          eapply keeps_command_line_in; [exact Hc|intros ?]
      | |- keeps _ _ (echo _ _) => eapply keeps_echo; [exact Hc|]
      | |- keeps _ _ (unless_directory _ _ _) =>
          eapply keeps_unless_directory; [exact Hc| |]
      | |- keeps _ _ (until_healthy _ _ _) =>
          eapply keeps_until_healthy; [exact Hc| | |]
      | |- keeps _ _ (status_of _ _) => eapply keeps_status_of; [exact Hc|]
      | |- keeps _ _ (errexit _) => eapply keeps_errexit; exact Hc
      | |- keeps _ _ (match ?x with _ => _ end) => destruct x
      end ].

Ltac walk Hc := walk_with Hc fail.

Ltac unfold_script :=
  unfold script, resolve_release, component_images, image, render_cvo,
    render_kube_apiserver, render_kube_controller_manager,
    render_kube_scheduler, render_mco, start_etcd_signer, wait_for_etcd.

(** *** Histories *)

Lemma snoc_eq_app_cons {A} (l : list A) (x : A) pre e post :
  l ++ [x] = pre ++ e :: post ->
  (exists post', l = pre ++ e :: post' /\ post = post' ++ [x])
  \/ (pre = l /\ e = x /\ post = []).
Proof.
  revert pre. induction l as [|y l IH]; intros pre Heq.
  - destruct pre as [|z pre]; cbn in Heq.
    + injection Heq as <- <-. right. auto.
    + injection Heq as _ Heq. destruct pre; discriminate Heq.
  - destruct pre as [|z pre]; cbn in Heq.
    + injection Heq as <- Heq. left. exists (removelast post).
      destruct post as [|p post] using rev_ind.
      * destruct l; discriminate Heq.
      * rewrite removelast_last. apply app_inj_tail in Heq as [-> ->]. auto.
    + injection Heq as <- Heq.
      destruct (IH pre Heq) as [(post' & -> & ->)|(-> & -> & ->)].
      * left. eauto.
      * right. auto.
Qed.

Lemma only_after_nil kind before : only_after kind before [].
Proof. intros pre e post Heq. destruct pre; discriminate Heq. Qed.

Lemma only_after_snoc_other kind before l x :
  only_after kind before l -> ~ kind (argv_of x) ->
  only_after kind before (l ++ [x]).
Proof.
  intros Hl Hx pre e post Heq Hkind.
  apply snoc_eq_app_cons in Heq as [(post' & -> & _)|(_ & -> & _)].
  - exact (Hl pre e post' eq_refl Hkind).
  - contradiction.
Qed.

Lemma only_after_snoc kind before l x :
  only_after kind before l -> (kind (argv_of x) -> before l) ->
  only_after kind before (l ++ [x]).
Proof.
  intros Hl Hbefore pre e post Heq Hkind.
  apply snoc_eq_app_cons in Heq as [(post' & -> & _)|(-> & -> & _)].
  - exact (Hl pre e post' eq_refl Hkind).
  - exact (Hbefore Hkind).
Qed.

(** An invariant on the history, under the only trap the script sets,
    is kept by every command that is not of the kind in question. *)
Lemma closed_only_after kind before :
  ~ kind remove_etcd_signer ->
  closed (fun s : Shell W =>
            only_after kind before (history s) /\ trap_is_cleanup s)
         (fun _ => True)
         (fun argv => ~ kind argv).
Proof.
  intros Hcleanup. split; [|split; [|split]]; auto.
  - intros s argv status stdout w [Hl Htrap] Hok. split.
    + apply only_after_snoc_other; assumption.
    + exact Htrap.
  - intros s handler [_ Htrap] Hh. rewrite (Htrap handler Hh). exact Hcleanup.
Qed.

Lemma keeps_set_cleanup kind before (R : Shell W -> Prop) :
  keeps (fun s : Shell W =>
           only_after kind before (history s) /\ trap_is_cleanup s) R
        (trap_ERR remove_etcd_signer).
Proof.
  apply keeps_trap_ERR. intros s [Hl _]. split; [exact Hl|].
  intros handler Hh. cbn in Hh. congruence.
Qed.

(** ** The sentinel *)

Lemma sentinel_start_cluster_bootstrap i :
  keeps (fun s : Shell W =>
           only_after (eq bootkube_done) (bootstrap_succeeded H) (history s)
           /\ trap_is_cleanup s)
        (fun _ => True)
        (start_cluster_bootstrap H i).
Proof.
  assert (Hc := closed_only_after (eq bootkube_done) (bootstrap_succeeded H)
                  ltac:(discriminate)).
  unfold start_cluster_bootstrap.
  apply keeps_and_then; [walk Hc; discriminate|]. intros _.
  apply keeps_and_then; [walk Hc; discriminate|]. intros _.
  apply keeps_and_then; [walk Hc; discriminate|]. intros _.
  apply keeps_and_then; [walk Hc; discriminate|]. intros _.
  intros s [Hl Htrap].
  unfold and_then, command_line, and_then, status_of, errexit, pure.
  destruct (execute H (cluster_bootstrap H i) (host_world s)) as [[[|st] out] w];
    cbn.
  - assert (Hb : only_after (eq bootkube_done) (bootstrap_succeeded H)
                   ((history s ++ [ran (cluster_bootstrap H i) 0 out])
                      ++ [ran bootkube_done
                            (fst (fst (execute H bootkube_done w)))
                            (snd (fst (execute H bootkube_done w)))])).
    { apply only_after_snoc.
      - apply only_after_snoc_other; [exact Hl|discriminate].
      - intros _. exists i, out. apply last_snoc. }
    destruct (execute H bootkube_done w) as [[[|st'] out'] w']; cbn in *.
    + auto.
    + destruct (err_trap s) as [handler|] eqn:Hh; cbn.
      * destruct (execute H handler w') as [[st'' out''] w'']; cbn.
        split; [|auto]. split; [|intros h' [= <-]; exact (Htrap handler Hh)].
        rewrite (Htrap handler Hh).
        apply only_after_snoc_other; [exact Hb|discriminate].
      * split; [|auto]. split; [exact Hb|intros h' Hh'; discriminate Hh'].
  - destruct (err_trap s) as [handler|] eqn:Hh; cbn.
    + destruct (execute H handler w) as [[st'' out''] w'']; cbn.
      split; [|auto]. split; [|intros h' [= <-]; exact (Htrap handler Hh)].
      rewrite (Htrap handler Hh).
      apply only_after_snoc_other; [|discriminate].
      apply only_after_snoc_other; [exact Hl|discriminate].
    + split; [|auto]. split; [|intros h' Hh'; discriminate Hh'].
      apply only_after_snoc_other; [exact Hl|discriminate].
Qed.

(** X9. The sentinel file.  Whatever the outcome and however many rounds the
    wait for etcd is allowed, [touch /opt/openshift/.bootkube.done] is
    run only right after cluster-bootstrap has exited with status 0: the
    command before it in the history is the cluster-bootstrap container,
    and it succeeded. *)
Theorem sentinel_only_after_bootstrap (rounds : nat) (w : W) :
  only_after (eq bootkube_done) (bootstrap_succeeded H)
    (history (snd (script H T rounds (start w)))).
Proof.
  assert (Hc := closed_only_after (eq bootkube_done) (bootstrap_succeeded H)
                  ltac:(discriminate)).
  assert (Hkeeps : keeps (fun s : Shell W =>
                     only_after (eq bootkube_done) (bootstrap_succeeded H)
                       (history s)
                     /\ trap_is_cleanup s) (fun _ => True) (script H T rounds)).
  { unfold_script.
    walk_with Hc ltac:(first
      [ apply sentinel_start_cluster_bootstrap
      | apply keeps_set_cleanup ]).
    all: discriminate. }
  apply (Hkeeps (start w)). split.
  - apply only_after_nil.
  - intros handler Hh. discriminate Hh.
Qed.

(** ** The wait for etcd *)

(** X10. The loop, round by round.  Every round that does not find etcd
    healthy is the check, the message and a sleep of five seconds, each
    of the two with status 0, and the loop ends with the first healthy
    answer.  A failed check never ends the script: the script ends in
    the loop only on a failed message or a failed sleep after a failed
    check, and then the trap, if one is set, is the last command. *)
Theorem until_healthy_rounds (rounds : nat) (s : Shell W) :
  let final := until_healthy H T rounds s in
  err_trap (snd final) = err_trap s
  /\ exists failed rest,
       history (snd final)
       = history s ++ flat_map (failed_round T) failed ++ rest
       /\ match fst final with
          | Done _ =>
              length failed < rounds
              /\ exists stdout, rest = [ran (endpoint_health T) 0 stdout]
          | OutOfRounds => length failed = rounds /\ rest = []
          | Aborted =>
              length failed < rounds /\ fatal_round T (err_trap s) rest
          end.
Proof.
  cbv zeta. revert s. induction rounds as [|rounds IH]; intros s.
  - split; [reflexivity|]. exists [], []. cbn. rewrite app_nil_r. auto.
  - cbn [until_healthy].
    unfold echo, command_line, and_then, status_of, errexit, pure.
    destruct (execute H (endpoint_health T) (host_world s))
      as [[[|status] stdout] w] eqn:Hcheck; cbn.
    + split; [reflexivity|].
      exists [], [ran (endpoint_health T) 0 stdout]. cbn.
      split; [reflexivity|]. split; [lia|eauto].
    + destruct (execute H ["echo"; "etcdctl failed. Retrying in 5 seconds..."] w)
        as [[[|status1] stdout1] w1] eqn:Hecho; cbn.
      * destruct (execute H ["sleep"; "5"] w1)
          as [[[|status2] stdout2] w2] eqn:Hsleep; cbn.
        -- match goal with
           | |- context [until_healthy H T rounds ?s'] =>
               destruct (IH s') as (Htrap & failed & rest & Hhistory & Hresult)
           end.
           split; [exact Htrap|].
           exists ((status, stdout, stdout1, stdout2) :: failed), rest.
           split.
           ++ rewrite Hhistory. cbn. rewrite <- !app_assoc. reflexivity.
           ++ cbn [err_trap] in Hresult.
              destruct (fst (until_healthy H T rounds _)); cbn.
              ** destruct Hresult as [Hlt Hrest]. split; [lia|exact Hrest].
              ** destruct Hresult as [Hlt Hrest]. split; [lia|exact Hrest].
              ** destruct Hresult as [Hlt Hrest]. split; [lia|exact Hrest].
        -- destruct (err_trap s) as [handler|] eqn:Hh; cbn.
           ++ destruct (execute H handler w2) as [[st out] w3]. cbn.
              split; [reflexivity|]. exists []. eexists.
              split; [rewrite <- !app_assoc; reflexivity|].
              split; [cbn; lia|]. exists status, stdout, [ran handler st out].
              split; [exists st, out; reflexivity|].
              right. exists stdout1, status2, stdout2. reflexivity.
           ++ split; [reflexivity|]. exists []. eexists.
              split; [rewrite <- !app_assoc; reflexivity|].
              split; [cbn; lia|]. exists status, stdout, [].
              split; [reflexivity|].
              right. exists stdout1, status2, stdout2. reflexivity.
      * destruct (err_trap s) as [handler|] eqn:Hh; cbn.
        -- destruct (execute H handler w1) as [[st out] w3]. cbn.
           split; [reflexivity|]. exists []. eexists.
           split; [rewrite <- !app_assoc; reflexivity|].
           split; [cbn; lia|]. exists status, stdout, [ran handler st out].
           split; [exists st, out; reflexivity|].
           left. exists status1, stdout1. reflexivity.
        -- split; [reflexivity|]. exists []. eexists.
           split; [rewrite <- !app_assoc; reflexivity|].
           split; [cbn; lia|]. exists status, stdout, [].
           split; [reflexivity|].
           left. exists status1, stdout1. reflexivity.
Qed.

Lemma until_healthy_done (rounds : nat) (s : Shell W) :
  fst (until_healthy H T rounds s) = Done tt ->
  exists before stdout,
    history (snd (until_healthy H T rounds s))
    = before ++ [ran (endpoint_health T) 0 stdout].
Proof.
  revert s. induction rounds as [|rounds IH]; intros s.
  - cbn. discriminate.
  - cbn [until_healthy].
    unfold echo, command_line, and_then, status_of, errexit, pure.
    destruct (execute H (endpoint_health T) (host_world s))
      as [[[|status] stdout] w]; cbn.
    + intros _. exists (history s), stdout. reflexivity.
    + destruct (execute H ["echo"; "etcdctl failed. Retrying in 5 seconds..."] w)
        as [[[|status1] stdout1] w1]; cbn.
      * destruct (execute H ["sleep"; "5"] w1) as [[[|status2] stdout2] w2]; cbn.
        -- apply IH.
        -- destruct (err_trap s) as [handler|]; cbn; [|discriminate].
           destruct (execute H handler w2) as [[? ?] ?]. discriminate.
      * destruct (err_trap s) as [handler|]; cbn; [|discriminate].
        destruct (execute H handler w1) as [[? ?] ?]. discriminate.
Qed.

(** More rounds do not change a wait that came to an end. *)
Lemma until_healthy_more_rounds (rounds rounds' : nat) (s : Shell W) :
  rounds <= rounds' ->
  fst (until_healthy H T rounds s) <> OutOfRounds ->
  until_healthy H T rounds' s = until_healthy H T rounds s.
Proof.
  revert rounds' s. induction rounds as [|rounds IH]; intros rounds' s Hle Hend.
  - cbn in Hend. contradiction.
  - destruct rounds' as [|rounds']; [lia|].
    cbn [until_healthy] in *.
    unfold echo, command_line, and_then, status_of, errexit, pure in *.
    destruct (execute H (endpoint_health T) (host_world s))
      as [[[|status] stdout] w]; cbn in *; [reflexivity|].
    destruct (execute H ["echo"; "etcdctl failed. Retrying in 5 seconds..."] w)
      as [[[|status1] stdout1] w1]; cbn in *.
    + destruct (execute H ["sleep"; "5"] w1) as [[[|status2] stdout2] w2];
        cbn in *.
      * apply IH; [lia|exact Hend].
      * destruct (err_trap s); [|reflexivity].
        destruct (execute H l w2) as [[? ?] ?]; reflexivity.
    + destruct (err_trap s); [|reflexivity].
      destruct (execute H l w1) as [[? ?] ?]; reflexivity.
Qed.

(** ** The script and its rounds *)

(** One piece of the script after the other: which way the next piece
    went. *)
Ltac next_piece :=
  match goal with
  | |- context [match ?x with _ => _ end] =>
      lazymatch x with
      | context [match _ with _ => _ end] => fail
      | context [until_healthy] => fail
      | context [start_cluster_bootstrap] => fail
      | _ => destruct x as [[?| |] ?]; cbn in *
      end
  end.

(** Enough rounds give the result.  When the script has come to an end
    within the rounds the wait for etcd is allowed - it is done, or a
    command failed - it comes to the same end, with the same history, for
    any larger number of rounds. *)
Lemma script_more_rounds (rounds rounds' : nat) (s : Shell W) :
  rounds <= rounds' ->
  fst (script H T rounds s) <> OutOfRounds ->
  script H T rounds' s = script H T rounds s.
Proof.
  intros Hle. unfold script, wait_for_etcd, and_then.
  repeat (next_piece; try reflexivity; try (intros Hend; contradiction)).
  intros Hend.
  rewrite (until_healthy_more_rounds rounds rounds' _ Hle); [reflexivity|].
  destruct (until_healthy H T rounds _) as [[[]| |] ?]; cbn in *;
    [discriminate|discriminate|contradiction].
Qed.

Lemma start_cluster_bootstrap_done (i : Images) (s s' : Shell W) :
  start_cluster_bootstrap H i s = (Done tt, s') ->
  exists o2 o3 o4 o5 o6 o7,
    history s'
    = history s
      ++ [ ran ["echo"; "etcd cluster up. Killing etcd certificate signer..."] 0 o2;
           ran remove_etcd_signer 0 o3;
           ran ["rm"; "--force";
                "/etc/kubernetes/manifests/machineconfigoperator-bootstrap-pod.yaml"]
             0 o4;
           ran ["echo"; "Starting cluster-bootstrap..."] 0 o5;
           ran (cluster_bootstrap H i) 0 o6;
           ran bootkube_done 0 o7 ].
Proof.
  unfold start_cluster_bootstrap, echo, command_line, and_then, status_of,
    errexit, pure.
  repeat match goal with
    | |- context [execute H ?argv ?w] =>
        lazymatch w with
        | context [execute] => fail
        | _ => destruct (execute H argv w) as [[[|?] ?] ?]; cbn
        end
    | |- context [match err_trap ?s with _ => _ end] => destruct (err_trap s); cbn
    end; intros Heq; try discriminate Heq.
  injection Heq as <-. cbn. rewrite <- !app_assoc. cbn. do 6 eexists. reflexivity.
Qed.

(** X11. The script done.  When the script runs to its end, its last seven
    commands are: the check that found etcd healthy, the message, the
    removal of the signer container, the removal of the bootstrap pod
    manifest, the message, the cluster-bootstrap container, and the touch
    of the sentinel file - each with exit status 0. *)
Theorem script_done (rounds : nat) (w : W) :
  fst (script H T rounds (start w)) = Done tt ->
  exists before i o1 o2 o3 o4 o5 o6 o7,
    history (snd (script H T rounds (start w)))
    = before
      ++ [ ran (endpoint_health T) 0 o1;
           ran ["echo"; "etcd cluster up. Killing etcd certificate signer..."] 0 o2;
           ran remove_etcd_signer 0 o3;
           ran ["rm"; "--force";
                "/etc/kubernetes/manifests/machineconfigoperator-bootstrap-pod.yaml"]
             0 o4;
           ran ["echo"; "Starting cluster-bootstrap..."] 0 o5;
           ran (cluster_bootstrap H i) 0 o6;
           ran bootkube_done 0 o7 ].
Proof.
  unfold script, wait_for_etcd, and_then.
  repeat (next_piece; try (intros Hdone; discriminate Hdone)).
  match goal with
  | |- context [until_healthy H T rounds ?s] =>
      pose proof (until_healthy_done rounds s) as Hhealthy;
      destruct (until_healthy H T rounds s) as [[[]| |] healthy]
  end.
  all: cbn [fst snd] in *.
  all: try (intros Hdone; discriminate Hdone).
  destruct (Hhealthy eq_refl) as (before & o1 & Hhistory).
  match goal with
  | |- context [start_cluster_bootstrap H ?i healthy] =>
      pose proof (start_cluster_bootstrap_done i healthy) as Hfinal;
      destruct (start_cluster_bootstrap H i healthy) as [[[]| |] final];
      cbn [fst snd];
      try (intros Hdone; discriminate Hdone);
      destruct (Hfinal final eq_refl) as (o2 & o3 & o4 & o5 & o6 & o7 & Hs2);
      intros _;
      exists before, i, o1, o2, o3, o4, o5, o6, o7
  end.
  rewrite Hs2, Hhistory. rewrite <- !app_assoc. reflexivity.
Qed.

(** ** Cleaning up after a failure *)

Lemma closed_signer_guarded :
  closed (signer_guarded (W:=W) T) (signer_cleaned_up T)
         (fun argv => argv <> etcd_signer T).
Proof.
  split; [|split; [|split]].
  - intros s argv status stdout w [[Hnone Hnot]|Hsome] Hok.
    + left. split; [exact Hnone|]. intros (st & out & Hin). cbn in Hin.
      apply in_app_or in Hin as [Hin|[Hin|[]]].
      * apply Hnot. exists st, out. exact Hin.
      * injection Hin as Heq _ _. exact (Hok Heq).
    + right. exact Hsome.
  - intros s handler [[Hnone _]|Hsome] Hh.
    + congruence.
    + assert (handler = remove_etcd_signer) as -> by congruence. discriminate.
  - intros s [[_ Hnot]|Hsome] Hnone Hattempted.
    + contradiction.
    + congruence.
  - intros s handler status stdout w [[Hnone _]|Hsome] Hh Hattempted.
    + congruence.
    + assert (handler = remove_etcd_signer) as -> by congruence.
      exists status, stdout. apply last_snoc.
Qed.

Lemma closed_trap_set :
  closed (fun s : Shell W => err_trap s = Some remove_etcd_signer)
         (signer_cleaned_up T) (fun _ => True).
Proof.
  split; [|split; [|split]]; auto.
  - intros s Hsome Hnone. congruence.
  - intros s handler status stdout w Hsome Hh _.
    assert (handler = remove_etcd_signer) as -> by congruence.
    exists status, stdout. apply last_snoc.
Qed.

Lemma keeps_weaken {A} (I I' R : Shell W -> Prop) (m : Sh W A) :
  keeps I' R m -> (forall s, I s -> I' s) -> (forall s, I' s -> I s) ->
  keeps I R m.
Proof.
  intros Hm Hin Hout s Hs. destruct (Hm s (Hin s Hs)) as [Hs' HR].
  split; [exact (Hout _ Hs')|exact HR].
Qed.

(** From the point where the trap is set, the trap stays set. *)
Lemma keeps_from_trap {A} (R : Shell W -> Prop) (k : unit -> Sh W A) :
  (forall a, keeps (fun s : Shell W => err_trap s = Some remove_etcd_signer) R (k a)) ->
  keeps (signer_guarded T) R (and_then (trap_ERR remove_etcd_signer) k).
Proof.
  intros Hk s Hs. unfold and_then, trap_ERR.
  destruct (Hk tt {| host_world := host_world s; history := history s;
                     err_trap := Some remove_etcd_signer |} eq_refl) as [Hs' HR].
  split; [right; exact Hs'|exact HR].
Qed.

(** X12. The ERR trap.  When the script ends on a failed command after it has
    tried to start the etcd signer container, the last thing it has run
    is the trap, [podman rm --force etcd-signer]; and the trap is in
    place from before the signer is started to the end of the script. *)
Theorem signer_removed_on_failure (rounds : nat) (w : W) :
  let final := script H T rounds (start w) in
  signer_guarded T (snd final)
  /\ (fst final = Aborted -> signer_cleaned_up T (snd final)).
Proof.
  cbv zeta.
  assert (Hc := closed_signer_guarded). assert (Hc' := closed_trap_set).
  assert (Hkeeps : keeps (signer_guarded T) (signer_cleaned_up T) (script H T rounds)).
  { unfold_script. unfold start_cluster_bootstrap.
    walk_with Hc ltac:(idtac;
      match goal with
      | |- keeps _ _ (and_then (trap_ERR _) _) =>
          apply keeps_from_trap; intros; walk Hc'
      end).
    all: first [exact I | discriminate]. }
  apply (Hkeeps (start w)). left. split; [reflexivity|].
  intros (st & out & []).
Qed.

(** ** Rendering, once *)

Ltac not_a_render :=
  let Hin := fresh "Hin" in
  intros (? & ? & ? & Hin); cbn in Hin;
  repeat (destruct Hin as [Hin|Hin]; try discriminate Hin);
  try contradiction.

Lemma keeps_render_step dir dir0 line render rest :
  (forall w, renders_into H T dir (render w) -> dir = dir0) ->
  ~ renders_into H T dir (no_directory dir0) ->
  ~ renders_into H T dir ["echo"; line] ->
  keeps (fun s : Shell W =>
           only_after (renders_into H T dir) (found_missing dir) (history s)
           /\ trap_is_cleanup s) (fun _ => True) rest ->
  keeps (fun s : Shell W =>
           only_after (renders_into H T dir) (found_missing dir) (history s)
           /\ trap_is_cleanup s) (fun _ => True)
        (unless_directory H dir0
           (and_then (echo H line)
              (fun _ => and_then (command_line_in H render) (fun _ => rest)))).
Proof.
  intros Hdir Htest Hecho Hrest s [Hl Htrap].
  assert (Hcleanup : ~ renders_into H T dir remove_etcd_signer) by not_a_render.
  unfold unless_directory, echo, command_line_in, command_line, and_then,
    status_of, errexit, pure.
  destruct (execute H (no_directory dir0) (host_world s)) as [[[|st] o1] w1]; cbn.
  - destruct (execute H ["echo"; line] w1) as [[[|st2] o2] w2]; cbn.
    + assert (Hrender : forall st3 o3,
        only_after (renders_into H T dir) (found_missing dir)
          (((history s ++ [ran (no_directory dir0) 0 o1])
              ++ [ran ["echo"; line] 0 o2]) ++ [ran (render w2) st3 o3])).
      { intros st3 o3. apply only_after_snoc.
        - apply only_after_snoc_other; [|exact Hecho].
          apply only_after_snoc_other; [exact Hl|exact Htest].
        - intros Hkind. rewrite (Hdir _ Hkind).
          exists o1, line, o2, (history s). rewrite <- app_assoc. reflexivity. }
      destruct (execute H (render w2) w2) as [[[|st3] o3] w3]; cbn.
      * match goal with
        | |- context [rest ?s'] =>
            destruct (Hrest s' (conj (Hrender 0 o3) Htrap)) as [Hs' _];
            destruct (rest s') as [[[]| |] s'']; cbn in *; auto
        end.
      * destruct (err_trap s) as [handler|] eqn:Hh; cbn.
        -- destruct (execute H handler w3) as [[st4 o4] w4]; cbn.
           split; [|auto]. split; [|intros h' [= <-]; exact (Htrap handler Hh)].
           rewrite (Htrap handler Hh).
           apply only_after_snoc_other; [apply Hrender|exact Hcleanup].
        -- split; [|auto]. split; [apply Hrender|intros h' Hh'; discriminate Hh'].
    + destruct (err_trap s) as [handler|] eqn:Hh; cbn.
      * destruct (execute H handler w2) as [[st4 o4] w4]; cbn.
        split; [|auto]. split; [|intros h' [= <-]; exact (Htrap handler Hh)].
        rewrite (Htrap handler Hh).
        apply only_after_snoc_other; [|exact Hcleanup].
        apply only_after_snoc_other; [|exact Hecho].
        apply only_after_snoc_other; [exact Hl|exact Htest].
      * split; [|auto]. split; [|intros h' Hh'; discriminate Hh'].
        apply only_after_snoc_other; [|exact Hecho].
        apply only_after_snoc_other; [exact Hl|exact Htest].
  - split; [|auto]. split; [|exact Htrap].
    apply only_after_snoc_other; [exact Hl|exact Htest].
Qed.

(** X13. Rendering is guarded.  For each of the five rendering steps, the
    rendering command is run only right after [[ ! -d dir ]] has found
    the step's output directory missing and the step was announced: a
    directory left by an earlier run makes the script skip the step. *)
Theorem render_only_if_missing (dir : string) (rounds : nat) (w : W) :
  only_after (renders_into H T dir) (found_missing dir)
    (history (snd (script H T rounds (start w)))).
Proof.
  assert (Hc := closed_only_after (renders_into H T dir) (found_missing dir)
                  ltac:(not_a_render)).
  assert (Hkeeps : keeps (fun s : Shell W =>
                     only_after (renders_into H T dir) (found_missing dir)
                       (history s)
                     /\ trap_is_cleanup s) (fun _ => True) (script H T rounds)).
  { unfold_script. unfold start_cluster_bootstrap.
    walk_with Hc ltac:(idtac;
      match goal with
      | |- keeps _ _ (unless_directory _ _
                        (and_then (echo _ _)
                           (fun _ => and_then (command_line_in _ _) _))) =>
          apply keeps_render_step
      | |- keeps _ _ (unless_directory _ _
                        (and_then (echo _ _)
                           (fun _ => and_then (command_line _ ?argv) ?k))) =>
          change (and_then (command_line H argv) k)
            with (and_then (command_line_in H (fun _ => argv)) k);
          apply keeps_render_step
      | |- keeps _ _ (trap_ERR _) => apply keeps_set_cleanup
      end).
    all: try match goal with |- forall _ : W, _ -> _ = _ => intros ? end.
    all: intros (release' & i' & w'' & Hin); cbn in Hin.
    all: repeat (destruct Hin as [Hin|Hin]; try discriminate Hin);
      try contradiction.
    all: injection Hin as <-; reflexivity. }
  apply (Hkeeps (start w)). split.
  - apply only_after_nil.
  - intros handler Hh. discriminate Hh.
Qed.

(** ** Starting cluster-bootstrap *)

(** No other command of the script is the start of cluster-bootstrap:
    it differs in one of its first words, or, for a query for a
    component image, in its last two. *)
Ltac not_bootstrap :=
  let Heq := fresh "Heq" in
  intros [? Heq]; unfold cluster_bootstrap in Heq;
  first [ discriminate Heq
        | apply (f_equal (fun l => List.rev (tl (tl (tl l))))) in Heq;
          unfold image_query in Heq; cbn [tl] in Heq;
          rewrite rev_app_distr in Heq; cbn [List.rev app] in Heq;
          discriminate Heq ].

Ltac aborted Hl Htrap :=
  let Hh := fresh "Hh" in
  let handler := fresh "handler" in
  match goal with
  | |- context [err_trap ?s] =>
      destruct (err_trap s) as [handler|] eqn:Hh; cbn;
      [ pose proof (Htrap handler Hh); subst handler;
        match goal with
        | |- context [execute H remove_etcd_signer ?w] =>
            destruct (execute H remove_etcd_signer w) as [[? ?] ?]
        end; cbn;
        split; [split; [|intros ? [= <-]; reflexivity]|auto]
      | split; [split; [|intros ? ?; discriminate]|auto] ];
      repeat (apply only_after_snoc_other; [|not_bootstrap]); exact Hl
  end.

Lemma keeps_assoc {A B C} (I R : Shell W -> Prop) (m : Sh W A)
    (k : A -> Sh W B) (k' : B -> Sh W C) :
  keeps I R (and_then m (fun a => and_then (k a) k')) ->
  keeps I R (and_then (and_then m k) k').
Proof.
  intros Hk s Hs. specialize (Hk s Hs). unfold and_then in *.
  destruct (m s) as [[a| |] s']; exact Hk.
Qed.

Lemma bootstrap_start_cluster_bootstrap i s o1 :
  only_after (starts_cluster_bootstrap H) (etcd_up_signer_gone T) (history s) ->
  trap_is_cleanup s ->
  ends_with (history s) [ran (endpoint_health T) 0 o1] ->
  (only_after (starts_cluster_bootstrap H) (etcd_up_signer_gone T)
     (history (snd (start_cluster_bootstrap H i s)))
   /\ trap_is_cleanup (snd (start_cluster_bootstrap H i s))) /\ True.
Proof.
  intros Hl Htrap [before Hbefore].
  unfold start_cluster_bootstrap, echo, command_line, and_then, status_of,
    errexit, pure.
  destruct (execute H ["echo"; _] (host_world s)) as [[[|st2] o2] w2]; cbn;
    [|aborted Hl Htrap].
  destruct (execute H remove_etcd_signer w2) as [[[|st3] o3] w3]; cbn;
    [|aborted Hl Htrap].
  destruct (execute H ["rm"; _; _] w3) as [[[|st4] o4] w4]; cbn;
    [|aborted Hl Htrap].
  destruct (execute H ["echo"; _] w4) as [[[|st5] o5] w5]; cbn;
    [|aborted Hl Htrap].
  assert (Hstart : forall st6 o6,
    only_after (starts_cluster_bootstrap H) (etcd_up_signer_gone T)
      (((((history s
             ++ [ran ["echo"; "etcd cluster up. Killing etcd certificate signer..."]
                   0 o2])
            ++ [ran remove_etcd_signer 0 o3])
           ++ [ran ["rm"; "--force";
                    "/etc/kubernetes/manifests/machineconfigoperator-bootstrap-pod.yaml"]
                 0 o4])
          ++ [ran ["echo"; "Starting cluster-bootstrap..."] 0 o5])
         ++ [ran (cluster_bootstrap H i) st6 o6])).
  { intros st6 o6. apply only_after_snoc.
    - repeat (apply only_after_snoc_other; [|not_bootstrap]). exact Hl.
    - intros _. exists o1, o2, o3, o4, o5, before. rewrite Hbefore.
      rewrite <- !app_assoc. reflexivity. }
  destruct (execute H (cluster_bootstrap H i) w5) as [[[|st6] o6] w6]; cbn.
  - destruct (execute H bootkube_done w6) as [[[|st7] o7] w7]; cbn.
    + split; [split; [|exact Htrap]|auto].
      apply only_after_snoc_other; [apply Hstart|not_bootstrap].
    + destruct (err_trap s) as [handler|] eqn:Hh; cbn.
      * pose proof (Htrap handler Hh); subst handler.
        destruct (execute H remove_etcd_signer w7) as [[st8 o8] w8]; cbn.
        split; [split; [|intros ? [= <-]; reflexivity]|auto].
        apply only_after_snoc_other; [|not_bootstrap].
        apply only_after_snoc_other; [apply Hstart|not_bootstrap].
      * split; [split; [|intros ? ?; discriminate]|auto].
        apply only_after_snoc_other; [apply Hstart|not_bootstrap].
  - destruct (err_trap s) as [handler|] eqn:Hh; cbn.
    + pose proof (Htrap handler Hh); subst handler.
      destruct (execute H remove_etcd_signer w6) as [[st8 o8] w8]; cbn.
      split; [split; [|intros ? [= <-]; reflexivity]|auto].
      apply only_after_snoc_other; [apply Hstart|not_bootstrap].
    + split; [split; [|intros ? ?; discriminate]|auto]. apply Hstart.
Qed.

Lemma bootstrap_after_wait i rounds :
  keeps (fun s : Shell W =>
           only_after (starts_cluster_bootstrap H) (etcd_up_signer_gone T)
             (history s)
           /\ trap_is_cleanup s)
        (fun _ => True)
        (and_then (until_healthy H T rounds)
           (fun _ => start_cluster_bootstrap H i)).
Proof.
  induction rounds as [|rounds IH]; intros s [Hl Htrap].
  - cbn. auto.
  - cbn [until_healthy]. unfold and_then, status_of.
    destruct (execute H (endpoint_health T) (host_world s)) as [[[|st] o1] w1];
      cbn [fst snd pure].
    + match goal with
      | |- context [start_cluster_bootstrap H i ?s'] =>
          destruct (bootstrap_start_cluster_bootstrap i s' o1) as [Hs' _];
          [ apply only_after_snoc_other; [exact Hl|not_bootstrap]
          | exact Htrap
          | exists (history s); reflexivity
          | split; [exact Hs'|auto] ]
      end.
    + unfold echo, command_line, and_then, status_of, errexit, pure. cbn.
      destruct (execute H ["echo"; _] w1) as [[[|st2] o2] w2]; cbn;
        [|aborted Hl Htrap].
      destruct (execute H ["sleep"; "5"] w2) as [[[|st3] o3] w3]; cbn;
        [|aborted Hl Htrap].
      match goal with
      | |- context [until_healthy H T rounds ?s'] =>
          assert (Hs' : only_after (starts_cluster_bootstrap H)
                          (etcd_up_signer_gone T) (history s')
                        /\ trap_is_cleanup s')
            by (split; [|exact Htrap]; cbn;
                repeat (apply only_after_snoc_other; [|not_bootstrap]);
                exact Hl);
          specialize (IH s' Hs'); unfold and_then in IH;
          destruct (until_healthy H T rounds s') as [[[]| |] s'']; exact IH
      end.
Qed.

(** X14. Cluster-bootstrap is started only on a healthy etcd.  Whatever the
    commands answer, the cluster-bootstrap container is run only right
    after the health check of etcd has succeeded, the certificate
    signer has been removed and the bootstrap pod manifest of the
    machine config operator deleted, all with status 0. *)
Theorem bootstrap_only_on_healthy_etcd (rounds : nat) (w : W) :
  only_after (starts_cluster_bootstrap H) (etcd_up_signer_gone T)
    (history (snd (script H T rounds (start w)))).
Proof.
  assert (Hc := closed_only_after (starts_cluster_bootstrap H)
                  (etcd_up_signer_gone T) ltac:(not_bootstrap)).
  assert (Hkeeps : keeps (fun s : Shell W =>
                     only_after (starts_cluster_bootstrap H)
                       (etcd_up_signer_gone T) (history s)
                     /\ trap_is_cleanup s) (fun _ => True) (script H T rounds)).
  { unfold script, resolve_release, component_images, image, render_cvo,
      render_kube_apiserver, render_kube_controller_manager,
      render_kube_scheduler, render_mco, start_etcd_signer.
    walk_with Hc ltac:(idtac;
      match goal with
      | |- keeps _ _ (and_then (wait_for_etcd _ _ _) _) =>
          unfold wait_for_etcd; apply keeps_assoc;
          apply keeps_and_then; [|intros; apply bootstrap_after_wait]
      | |- keeps _ _ (trap_ERR _) => apply keeps_set_cleanup
      end).
    all: not_bootstrap. }
  apply (Hkeeps (start w)). split.
  - apply only_after_nil.
  - intros handler Hh. discriminate Hh.
Qed.
(** ** The release image *)












End Bootkube.


(** ** The script on a host *)

Import scripted_host.

(** Etcd comes up at the third check, every directory is missing: the
    script runs to its end. *)
Example script_on_a_fresh_host :
  let final := script (host 2 []) T0 3 (start 0) in
  fst final = Done tt
  /\ length (history (snd final)) = 69
  /\ last (commands (history (snd final))) = Some bootkube_done.
Proof. vm_compute. repeat split; reflexivity. Qed.

(** The words of three of its commands there: the digest, printed on a
    line, is taken without the line feed; [openshift/*] is replaced by
    the two files that match; a pattern that matches nothing stays. *)
Example script_words_on_a_fresh_host :
  let ran := commands (history (snd (script (host 0 []) T0 1 (start 0)))) in
  In ["podman"; "run"; "--rm"; "registry/release@sha256:0"; "image"; "etcd"] ran
  /\ In ["cp"; "openshift/99_binding.yaml"; "openshift/99_role.yaml";
         "/etc/mcc/bootstrap/"] ran
  /\ In ["cp"; "cvo-bootstrap/manifests/*"; "manifests/"] ran.
Proof. vm_compute. tauto. Qed.

(** The release image there: the digest the query printed, and the
    query for the etcd image takes it. *)
Example script_release_on_a_fresh_host :
  let final := script (host 0 []) T0 1 (start 0) in
  let query := ["podman"; "run"; "--rm"; "registry/release@sha256:0"; "image";
                "etcd"] in
  exists pre stdout post,
    history (snd final) = pre ++ ran query 0 stdout :: post
    /\ resolved T0 "registry/release@sha256:0" pre
    /\ uses_release (host 0 []) "registry/release@sha256:0" query.
Proof.
  cbv zeta.
  exists (firstn 8 (history (snd (script (host 0 []) T0 1 (start 0))))),
         ("registry/etcd" +:+ String line_feed EmptyString),
         (skipn 9 (history (snd (script (host 0 []) T0 1 (start 0))))).
  split; [vm_compute; reflexivity|]. split.
  - exists 0, ("registry/release@sha256:0" +:+ String line_feed EmptyString).
    split; [vm_compute; tauto|vm_compute; reflexivity].
  - left. exists "etcd", 0. vm_compute. reflexivity.
Qed.

(** The second round's [sleep] fails: the script ends there, and the
    trap removes the signer. *)
Example script_with_a_failing_sleep :
  let final := script (host 2 [["sleep"; "5"]]) T0 3 (start 0) in
  fst final = Aborted
  /\ last (commands (history (snd final))) = Some remove_etcd_signer
  /\ ~ In bootkube_done (commands (history (snd final))).
Proof.
  vm_compute. repeat split; try reflexivity.
  intros Hin. repeat (destruct Hin as [Hin|Hin]; [discriminate Hin|]).
  exact Hin.
Qed.

(** The directory [mco-bootstrap] is there: nothing is rendered into
    it. *)
Example script_with_mco_rendered :
  let final :=
    script (host 0 [no_directory "mco-bootstrap"]) T0 1 (start 0) in
  fst final = Done tt /\ length (history (snd final)) = 52.
Proof. vm_compute. split; reflexivity. Qed.

Lemma script_done_witness :
  fst (script (host 2 []) T0 3 (start 0)) = Done tt
  /\ exists before i o1 o2 o3 o4 o5 o6 o7,
       history (snd (script (host 2 []) T0 3 (start 0)))
       = before
         ++ [ ran (endpoint_health T0) 0 o1;
              ran ["echo"; "etcd cluster up. Killing etcd certificate signer..."]
                0 o2;
              ran remove_etcd_signer 0 o3;
              ran ["rm"; "--force";
                   "/etc/kubernetes/manifests/machineconfigoperator-bootstrap-pod.yaml"]
                0 o4;
              ran ["echo"; "Starting cluster-bootstrap..."] 0 o5;
              ran (cluster_bootstrap (host 2 []) i) 0 o6;
              ran bootkube_done 0 o7 ].
Proof.
  assert (Hdone : fst (script (host 2 []) T0 3 (start 0)) = Done tt)
    by (vm_compute; reflexivity).
  split; [exact Hdone|].
  exact (script_done (host 2 []) T0 3 0 Hdone).
Defined.
